(** * Todo lifecycle service: a shallow embedding and its properties

    The development follows [app/models.py] (the persisted entity and the two
    request shapes), [app/todo_service.py] (create, list, get, update,
    toggle, delete, stats) and the handlers of [app/todo_ui.py] that call
    the service.  The storage session is a small state-and-error
    monad over a table keyed by the primary key; [datetime.utcnow()] is an
    input of every operation that reads the clock. *)

From Stdlib Require Import ZArith SpecFloat.
From stdpp Require Import gmap strings list sorting.

Open Scope Z_scope.

(** ** Python values used by the service *)

Module Py.

(** [datetime]: microseconds since the epoch.  The service only stores and
    compares time stamps. *)
Definition datetime : Type := Z.

(** [len(s)] of a [str]: one character of the model is one unit. *)
Definition len (s : string) : Z := Z.of_nat (String.length s).

(** ** Binary64 arithmetic, as CPython performs it *)

Definition prec : Z := 53.
Definition emax : Z := 1024.

(** The integer [z] as a significand with exponent 0 (exact, not yet
    rounded to 53 bits). *)
Definition exact_int (z : Z) : spec_float :=
  match z with
  | Z0 => S754_zero false
  | Zpos p => S754_finite false p 0
  | Zneg p => S754_finite true p 0
  end.

(** [float(z)]: the integer rounded to the nearest double. *)
Definition float_of_int (z : Z) : spec_float :=
  binary_normalize prec emax z 0 false.

(** [a / b] on two [int]s: the correctly rounded quotient
    ([long_true_divide]); [b] is not zero at the only call site. *)
Definition int_truediv (a b : Z) : spec_float :=
  SFdiv prec emax (exact_int a) (exact_int b).

(** [x * y] on two [float]s. *)
Definition float_mul (x y : spec_float) : spec_float :=
  SFmul prec emax x y.

(** The integer nearest to [n / d] for [0 < d], ties to the even one. *)
Definition round_half_even (n d : Z) : Z :=
  let q := n `div` d in
  let r := n `mod` d in
  match 2 * r ?= d with
  | Lt => q
  | Gt => q + 1
  | Eq => if Z.even q then q else q + 1
  end.

(** The magnitude of [m * 2^e] in units of [10^-ndigits], rounded to the
    nearest integer, ties to even: the decimal digits [_Py_dg_dtoa]
    produces in mode 3. *)
Definition decimal_units (ndigits : Z) (m : positive) (e : Z) : Z :=
  let n := 10 ^ ndigits * Z.pos m in
  if 0 <=? e then n * 2 ^ e else round_half_even n (2 ^ (- e)).

(** [round(x, ndigits)] on a [float], [0 <= ndigits]: the shortest-repr
    build of [double_round] prints [x] correctly rounded to [ndigits]
    decimals and reads the digits back as the nearest double. *)
Definition float_round (x : spec_float) (ndigits : Z) : spec_float :=
  match x with
  | S754_finite s m e =>
      match decimal_units ndigits m e with
      | Zpos k => SFdiv prec emax (S754_finite s k 0) (exact_int (10 ^ ndigits))
      | _ => S754_zero s
      end
  | _ => x
  end.

(** A Python number: the stats dictionary holds an [int] or a [float]
    under ["completion_rate"]. *)
Inductive number : Type :=
  | Int (z : Z)
  | Float (x : spec_float).

(** [round(v, ndigits)] with [0 <= ndigits]: an [int] is returned as it is,
    a [float] goes through [float_round]. *)
Definition round (v : number) (ndigits : Z) : number :=
  match v with
  | Int z => Int z
  | Float x => Float (float_round x ndigits)
  end.

(** [v * k] for an [int] [k]: the [int] operand of a [float] product is
    converted first. *)
Definition mul_int (v : number) (k : Z) : number :=
  match v with
  | Int z => Int (z * k)
  | Float x => Float (float_mul x (float_of_int k))
  end.

End Py.

(** ** app/models.py *)

(** [class TodoItem(SQLModel, table=True)]. *)
Record TodoItem : Type := mkTodoItem {
  id : option Z;
  description : string;
  completed : bool;
  created_at : Py.datetime;
  updated_at : option Py.datetime
}.

(** [class TodoItemCreate(SQLModel, table=False)]. *)
Record TodoItemCreate : Type := mkTodoItemCreate {
  create_description : string
}.

(** [class TodoItemUpdate(SQLModel, table=False)]. *)
Record TodoItemUpdate : Type := mkTodoItemUpdate {
  update_description : option string;
  update_completed : option bool
}.

(** [Field(max_length=500)]. *)
Definition max_length : Z := 500.

Definition within_max_length (s : string) : bool := Py.len s <=? max_length.

(** Errors a call can raise. *)
Inductive error : Type :=
  | ValidationRejected   (* a description longer than [max_length] *)
  | RowNotFound.         (* refreshing an object whose row is gone *)

Inductive result (A : Type) : Type :=
  | Ok (a : A)
  | Raise (e : error).
Arguments Ok {A} a.
Arguments Raise {A} e.

(** [TodoItemCreate(description=d)]: a [table=False] model validates its
    fields when it is constructed. *)
Definition TodoItemCreate_new (d : string) : result TodoItemCreate :=
  if within_max_length d then Ok (mkTodoItemCreate d) else Raise ValidationRejected.

(** [TodoItemUpdate(description=d, completed=c)], both optional. *)
Definition TodoItemUpdate_new (d : option string) (c : option bool)
  : result TodoItemUpdate :=
  match d with
  | Some s =>
      if within_max_length s then Ok (mkTodoItemUpdate d c)
      else Raise ValidationRejected
  | None => Ok (mkTodoItemUpdate None c)
  end.

(** The requests the validating constructors produce. *)
Definition valid_create (r : TodoItemCreate) : Prop :=
  Py.len (create_description r) ≤ max_length.

Definition valid_update (r : TodoItemUpdate) : Prop :=
  ∀ s, update_description r = Some s → Py.len s ≤ max_length.

(** [TodoItem(description=d)]: a [table=True] model is built without field
    validation; [id], [completed] and [updated_at] take their defaults and
    [created_at] its [default_factory], [datetime.utcnow]. *)
Definition TodoItem_new (now : Py.datetime) (d : string) : TodoItem :=
  {| id := None; description := d; completed := false;
     created_at := now; updated_at := None |}.

(** Attribute assignment on an item. *)
Definition set_id (k : Z) (t : TodoItem) : TodoItem :=
  {| id := Some k; description := description t; completed := completed t;
     created_at := created_at t; updated_at := updated_at t |}.

Definition set_description (d : string) (t : TodoItem) : TodoItem :=
  {| id := id t; description := d; completed := completed t;
     created_at := created_at t; updated_at := updated_at t |}.

Definition set_completed (c : bool) (t : TodoItem) : TodoItem :=
  {| id := id t; description := description t; completed := c;
     created_at := created_at t; updated_at := updated_at t |}.

Definition set_updated_at (u : option Py.datetime) (t : TodoItem) : TodoItem :=
  {| id := id t; description := description t; completed := completed t;
     created_at := created_at t; updated_at := u |}.

(** ** The storage session *)

(** Modelled from the spec: [app/database.py] ([get_session], [create_tables],
    [reset_db]) is not part of the sources, so the backend follows the
    collaborator contract of the specification: insert returning a generated
    id, point lookup by id, full scan ordered by a time stamp descending,
    update in place, delete by id, and rejection of a description longer
    than the declared column length when a row is written.  The table maps a
    primary key to its row; [next_id] is the id generator. *)
Record Db : Type := mkDb {
  table : gmap Z TodoItem;
  next_id : Z
}.

(** [create_tables()] on a fresh database. *)
Definition empty_db : Db := {| table := ∅; next_id := 1 |}.

(** A computation inside [with get_session() as session:]. *)
Definition Session (A : Type) : Type := Db → result A * Db.

Global Instance session_ret : MRet Session := λ A a db, (Ok a, db).

Global Instance session_bind : MBind Session := λ A B k m db,
  match m db with
  | (Ok a, db') => k a db'
  | (Raise e, db') => (Raise e, db')
  end.

(** Modelled from the spec: point lookup by id, [session.get(TodoItem, k)]. *)
Definition session_get (k : Z) : Session (option TodoItem) :=
  λ db, (Ok (table db !! k), db).

(** Modelled from the spec: insert returning the generated id,
    [session.add(todo); session.commit()] for an object that is not in the
    table yet.  The row is written under the next id of the generator, which
    never hands out an id twice, or nothing is written when the description
    does not fit the column.  The key of the new row is returned. *)
Definition session_insert (todo : TodoItem) : Session Z :=
  λ db,
    if within_max_length (description todo) then
      let k := next_id db in
      (Ok k, {| table := <[k := set_id k todo]> (table db); next_id := k + 1 |})
    else (Raise ValidationRejected, db).

(** Modelled from the spec: update in place,
    [session.add(todo); session.commit()] for an object loaded under key
    [k].  The row is overwritten, or nothing is written when the description
    does not fit the column. *)
Definition session_update (k : Z) (todo : TodoItem) : Session unit :=
  λ db,
    if within_max_length (description todo) then
      (Ok (), {| table := <[k := todo]> (table db); next_id := next_id db |})
    else (Raise ValidationRejected, db).

(** Modelled from the spec: delete by id,
    [session.delete(todo); session.commit()] for the object loaded under
    key [k]. *)
Definition session_delete (k : Z) : Session unit :=
  λ db, (Ok (), {| table := delete k (table db); next_id := next_id db |}).

(** Modelled from the spec: [session.refresh(todo)], the object is reloaded
    from its row. *)
Definition session_refresh (k : Z) : Session TodoItem :=
  λ db, match table db !! k with
        | Some t => (Ok t, db)
        | None => (Raise RowNotFound, db)
        end.

(** [desc(TodoItem.created_at)]: [a] may precede [b] when it is not older. *)
Definition created_desc (a b : TodoItem) : Prop := created_at b ≤ created_at a.

Global Instance created_desc_dec (a b : TodoItem)
  : Decision (created_desc a b) :=
  decide (created_at b ≤ created_at a).

(** The rows of the table, one per key, in the order the table lists them. *)
Definition rows (db : Db) : list TodoItem := (map_to_list (table db)).*2.

(** Modelled from the spec: full scan ordered by a time stamp descending,
    [session.exec(select(TodoItem).order_by(desc(TodoItem.created_at))).all()]:
    the rows sorted newest first.  How rows with equal time stamps are
    ordered is the backend's choice; the model sorts the rows of the table
    with a merge sort. *)
Definition session_select_desc : Session (list TodoItem) :=
  λ db, (Ok (merge_sort created_desc (rows db)), db).

(** ** app/todo_service.py *)

(** [create_todo(todo_data)]; [now] is what [datetime.utcnow()] returns when
    the item is constructed. *)
Definition create_todo (now : Py.datetime) (todo_data : TodoItemCreate)
  : Session TodoItem :=
  let todo := TodoItem_new now (create_description todo_data) in
  k ← session_insert todo;
  session_refresh k.

(** [get_all_todos()]. *)
Definition get_all_todos : Session (list TodoItem) :=
  todos ← session_select_desc;
  mret todos.

(** [get_todo_by_id(todo_id)]. *)
Definition get_todo_by_id (todo_id : Z) : Session (option TodoItem) :=
  session_get todo_id.

(** The two guarded assignments of [update_todo]. *)
Definition apply_update (update_data : TodoItemUpdate) (todo : TodoItem)
  : TodoItem :=
  let todo :=
    match update_description update_data with
    | Some d => set_description d todo
    | None => todo
    end in
  match update_completed update_data with
  | Some c => set_completed c todo
  | None => todo
  end.

(** [update_todo(todo_id, update_data)]; [now] is what [datetime.utcnow()]
    returns when [updated_at] is assigned. *)
Definition update_todo (now : Py.datetime) (todo_id : Z)
    (update_data : TodoItemUpdate) : Session (option TodoItem) :=
  found ← session_get todo_id;
  match found with
  | None => mret None
  | Some todo =>
      let todo := apply_update update_data todo in
      let todo := set_updated_at (Some now) todo in
      (session_update todo_id todo ;;
       todo ← session_refresh todo_id;
       mret (Some todo))
  end.

(** [toggle_todo_completion(todo_id)]. *)
Definition toggle_todo_completion (now : Py.datetime) (todo_id : Z)
  : Session (option TodoItem) :=
  found ← session_get todo_id;
  match found with
  | None => mret None
  | Some todo =>
      let todo := set_completed (negb (completed todo)) todo in
      let todo := set_updated_at (Some now) todo in
      (session_update todo_id todo ;;
       todo ← session_refresh todo_id;
       mret (Some todo))
  end.

(** [delete_todo(todo_id)]. *)
Definition delete_todo (todo_id : Z) : Session bool :=
  found ← session_get todo_id;
  match found with
  | None => mret false
  | Some _ => (session_delete todo_id ;; mret true)
  end.

(** The dictionary [get_todo_stats] returns: its four keys are fixed. *)
Record Stats : Type := mkStats {
  total : Z;
  stats_completed : Z;
  pending : Z;
  completion_rate : Py.number
}.

(** [sum(1 for todo in todos if todo.completed)]. *)
Definition count_completed (todos : list TodoItem) : Z :=
  foldr (λ todo acc, if completed todo then 1 + acc else acc) 0 todos.

(** [get_todo_stats()]. *)
Definition get_todo_stats : Session Stats :=
  todos ← get_all_todos;
  let total := Z.of_nat (length todos) in
  let completed := count_completed todos in
  let pending := total - completed in
  mret {| total := total;
         stats_completed := completed;
         pending := pending;
         completion_rate :=
           Py.round (if 0 <? total
                     then Py.mul_int (Py.Float (Py.int_truediv completed total)) 100
                     else Py.Int 0) 1 |}.

(** ** Python strings in the handlers *)

Module PyStr.

(** A character of the model is a code point below 256. *)

(** [c.isspace()] for a character below 256: tab to carriage return, the
    four separators 28 to 31, space, next line and no-break space. *)
Definition isspace (c : Ascii.ascii) : bool :=
  let n := Ascii.N_of_ascii c in
  ((9 <=? n) && (n <=? 13) || (28 <=? n) && (n <=? 32)
   || (n =? 133) || (n =? 160))%N.

(** [s.lstrip()]. *)
Fixpoint lstrip (s : string) : string :=
  match s with
  | EmptyString => EmptyString
  | String c s' => if isspace c then lstrip s' else s
  end.

(** [s.rstrip()]. *)
Fixpoint rstrip (s : string) : string :=
  match s with
  | EmptyString => EmptyString
  | String c s' =>
      match rstrip s' with
      | EmptyString => if isspace c then EmptyString else String c EmptyString
      | r => String c r
      end
  end.

(** [s.strip()]: white space is removed at both ends. *)
Definition strip (s : string) : string := rstrip (lstrip s).

(** The characters of a string, first to last. *)
Fixpoint chars (s : string) : list Ascii.ascii :=
  match s with
  | EmptyString => []
  | String c s' => c :: chars s'
  end.

End PyStr.

(** ** app/todo_ui.py *)

(** A call [ui.notify(message, type=...)]. *)
Record Notification : Type := mkNotification {
  message : string;
  type : string
}.

(** What the handlers of the page act on: the store behind the service, the
    value of the input field [new_todo_input], and the notifications shown
    so far, oldest first. *)
Record Page : Type := mkPage {
  store : Db;
  input_value : string;
  notifications : list Notification
}.

(** A handler: it may raise, and what it did before raising stays done. *)
Definition Handler (A : Type) : Type := Page → result A * Page.

Global Instance handler_ret : MRet Handler := λ A a p, (Ok a, p).

Global Instance handler_bind : MBind Handler := λ A B k m p,
  match m p with
  | (Ok a, p') => k a p'
  | (Raise e, p') => (Raise e, p')
  end.

(** A call of the service from a handler. *)
Definition in_session {A} (m : Session A) : Handler A :=
  λ p, let '(r, db) := m (store p) in
       (r, {| store := db; input_value := input_value p;
              notifications := notifications p |}).

(** A constructor that may raise, called from a handler. *)
Definition construct {A} (r : result A) : Handler A := λ p, (r, p).

(** [ui.notify(message, type=type)]. *)
Definition ui_notify (message type : string) : Handler unit :=
  λ p, (Ok (), {| store := store p; input_value := input_value p;
                  notifications :=
                    notifications p ++ [mkNotification message type] |}).

(** [input_field.value]. *)
Definition get_value : Handler string := λ p, (Ok (input_value p), p).

(** [input_field.set_value(v)]. *)
Definition set_value (v : string) : Handler unit :=
  λ p, (Ok (), {| store := store p; input_value := v;
                  notifications := notifications p |}).

(** [try: body except Exception as e: handler(e)]. *)
Definition try_except {A} (body : Handler A) (handler : error → Handler A)
  : Handler A :=
  λ p, match body p with
       | (Ok a, p') => (Ok a, p')
       | (Raise e, p') => handler e p'
       end.

(** [delete_todo_item(todo_id, on_change_callback)]. *)
Definition delete_todo_item (todo_id : option Z)
    (on_change_callback : Handler unit) : Handler unit :=
  match todo_id with
  | None => mret ()
  | Some todo_id =>
      success ← in_session (delete_todo todo_id);
      if success : bool then
        (ui_notify "Todo item deleted successfully!" "positive" ;;
         on_change_callback)
      else ui_notify "Failed to delete todo item" "negative"
  end.

(** [toggle_todo_item(todo_id, on_change_callback)]; [now] is the clock of
    the service call.  A model instance is always true in [if updated_todo:],
    so the test tells [None] from an item. *)
Definition toggle_todo_item (now : Py.datetime) (todo_id : option Z)
    (on_change_callback : Handler unit) : Handler unit :=
  match todo_id with
  | None => mret ()
  | Some todo_id =>
      updated_todo ← in_session (toggle_todo_completion now todo_id);
      match updated_todo with
      | Some updated_todo =>
          let status :=
            if completed updated_todo then "completed" else "reopened" in
          (ui_notify ("Todo item " +:+ status +:+ "!") "positive" ;;
           on_change_callback)
      | None => ui_notify "Failed to update todo item" "negative"
      end
  end.

(** [add_new_todo(input_field, refresh_callback)]; [now] is the clock of the
    service call and [str e] the text of an exception. *)
Definition add_new_todo (str : error → string) (now : Py.datetime)
    (refresh_callback : Handler unit) : Handler unit :=
  value ← get_value;
  let description := PyStr.strip value in
  match description with
  | EmptyString => ui_notify "Please enter a todo description" "warning"
  | _ =>
      if 500 <? Py.len description then
        ui_notify "Todo description is too long (max 500 characters)" "warning"
      else
        try_except
          (todo_data ← construct (TodoItemCreate_new description);
           in_session (create_todo now todo_data) ;;
           set_value "" ;;
           ui_notify "Todo added successfully!" "positive" ;;
           refresh_callback)
          (λ e, ui_notify ("Failed to add todo: " +:+ str e) "negative")
  end.

(** [pending_todos] of [refresh_todos]:
    [[todo for todo in todos if not todo.completed]]. *)
Definition pending_todos (todos : list TodoItem) : list TodoItem :=
  filter (λ todo, completed todo = false) todos.

(** [completed_todos] of [refresh_todos]:
    [[todo for todo in todos if todo.completed]]. *)
Definition completed_todos (todos : list TodoItem) : list TodoItem :=
  filter (λ todo, completed todo = true) todos.

(** ** Sessions of calls *)

(** One call of the service, with the value [datetime.utcnow()] returns
    during the call where the call reads the clock. *)
Inductive call : Type :=
  | CallCreate (now : Py.datetime) (todo_data : TodoItemCreate)
  | CallGetAll
  | CallGetById (todo_id : Z)
  | CallUpdate (now : Py.datetime) (todo_id : Z) (update_data : TodoItemUpdate)
  | CallToggle (now : Py.datetime) (todo_id : Z)
  | CallDelete (todo_id : Z)
  | CallStats.

(** The store a call leaves behind. *)
Definition exec (c : call) (db : Db) : Db :=
  match c with
  | CallCreate now r => (create_todo now r db).2
  | CallGetAll => (get_all_todos db).2
  | CallGetById k => (get_todo_by_id k db).2
  | CallUpdate now k r => (update_todo now k r db).2
  | CallToggle now k => (toggle_todo_completion now k db).2
  | CallDelete k => (delete_todo k db).2
  | CallStats => (get_todo_stats db).2
  end.

(** What has happened to the items so far: the [created_at] every id was
    given by the call that created it (deleted items stay on record), and
    the ids a call of [update_todo] or [toggle_todo_completion] has
    mutated. *)
Record History : Type := mkHistory {
  created : gmap Z Py.datetime;
  mutated : gset Z
}.

Definition no_history : History := {| created := ∅; mutated := ∅ |}.

(** The history after call [c] has run on store [db]. *)
Definition record (c : call) (db : Db) (h : History) : History :=
  match c with
  | CallCreate now r =>
      match create_todo now r db with
      | (Ok t, _) =>
          match id t with
          | Some k => {| created := <[k := created_at t]> (created h);
                         mutated := mutated h |}
          | None => h
          end
      | _ => h
      end
  | CallUpdate now k r =>
      match update_todo now k r db with
      | (Ok (Some _), _) => {| created := created h; mutated := {[k]} ∪ mutated h |}
      | _ => h
      end
  | CallToggle now k =>
      match toggle_todo_completion now k db with
      | (Ok (Some _), _) => {| created := created h; mutated := {[k]} ∪ mutated h |}
      | _ => h
      end
  | _ => h
  end.

Definition step (s : Db * History) (c : call) : Db * History :=
  (exec c s.1, record c s.1 s.2).

(** A session: the calls are run in order on a fresh database. *)
Definition run (cs : list call) : Db * History :=
  foldl step (empty_db, no_history) cs.

(** The session of [test_get_todo_stats_with_todos]: three items are
    created and the first two are toggled. *)
Definition sample_session : list call :=
  [ CallCreate 10 (mkTodoItemCreate "Todo 1");
    CallCreate 20 (mkTodoItemCreate "Todo 2");
    CallCreate 30 (mkTodoItemCreate "Todo 3");
    CallToggle 40 1;
    CallToggle 50 2 ].

(** The row of the second item at the end of [sample_session]. *)
Definition sample_row : TodoItem :=
  {| id := Some 2; description := "Todo 2"; completed := true;
     created_at := 20; updated_at := Some 50 |}.

(** ["a" * n]. *)
Fixpoint str_repeat (n : nat) : string :=
  match n with
  | O => EmptyString
  | S n => String (Ascii.ascii_of_nat 97) (str_repeat n)
  end.

(** A callback that does nothing. *)
Definition no_callback : Handler unit := mret ().

(** A session with one item, created and then completed. *)
Definition all_done_session : list call :=
  [ CallCreate 10 (mkTodoItemCreate "Todo 1"); CallToggle 40 1 ].

(** The page over the store of [sample_session], with a new description
    typed into the input field. *)
Definition sample_page : Page :=
  {| store := (run sample_session).1; input_value := "  Buy milk  ";
     notifications := [] |}.

(** The same page with only white space in the input field. *)
Definition blank_page : Page :=
  {| store := (run sample_session).1; input_value := "   ";
     notifications := [] |}.

(** The same page with 501 characters in the input field. *)
Definition long_page : Page :=
  {| store := (run sample_session).1; input_value := str_repeat 501;
     notifications := [] |}.

(** ** Store invariant *)

(** What every row of every store the service can produce satisfies: the
    row carries its own key as [id], its description fits the column, and
    its key was handed out by the id generator. *)
Definition row_ok (db : Db) (k : Z) (t : TodoItem) : Prop :=
  id t = Some k ∧ Py.len (description t) ≤ max_length ∧ k < next_id db.

Definition store_ok (db : Db) : Prop := map_Forall (row_ok db) (table db).

(** The time-stamp bookkeeping of a store against the history of the
    session: every stored row has the [created_at] on record for its id,
    and its [updated_at] is absent exactly when the id was never mutated. *)
Definition stamps_ok (db : Db) (h : History) : Prop :=
  ∀ k t, table db !! k = Some t →
    created h !! k = Some (created_at t) ∧
    (updated_at t = None ↔ k ∉ mutated h).

(** Ids on record were handed out by the id generator. *)
Definition history_ok (db : Db) (h : History) : Prop :=
  (∀ k, is_Some (created h !! k) → k < next_id db) ∧
  (∀ k, k ∈ mutated h → k < next_id db).

(** The item [create_todo] stores for a request. *)
Definition created_item (k : Z) (now : Py.datetime) (r : TodoItemCreate)
  : TodoItem :=
  {| id := Some k; description := create_description r; completed := false;
     created_at := now; updated_at := None |}.

(** The row [update_todo] writes back over [t]. *)
Definition updated_item (now : Py.datetime) (r : TodoItemUpdate) (t : TodoItem)
  : TodoItem :=
  set_updated_at (Some now) (apply_update r t).

(** The row [toggle_todo_completion] writes back over [t]. *)
Definition toggled_item (now : Py.datetime) (t : TodoItem) : TodoItem :=
  set_updated_at (Some now) (set_completed (negb (completed t)) t).

(** The three invariants of a session together. *)
Definition inv (s : Db * History) : Prop :=
  store_ok s.1 ∧ stamps_ok s.1 s.2 ∧ history_ok s.1 s.2.

(** Unfolds the session monad and the backend operations. *)
Ltac session_unfold :=
  unfold mbind, mret, session_bind, session_ret, session_get, session_insert,
    session_update, session_delete, session_refresh, session_select_desc;
  simpl.

(** The number of completed rows of a table. *)
Local Abbreviation done_rows m :=
  (size (filter (λ kt : Z * TodoItem, completed kt.2 = true) m)).

(** Unfolds the handler monad and the page operations. *)
Ltac handler_unfold :=
  unfold mbind, mret, handler_bind, handler_ret, in_session, construct,
    ui_notify, get_value, set_value, try_except;
  simpl.

(** ** Equations of the operations *)

Global Instance created_desc_total : Total created_desc.
Proof. intros a b. unfold created_desc. lia. Qed.

Global Instance created_desc_trans : Transitive created_desc.
Proof. intros a b c. unfold created_desc. lia. Qed.


Lemma within_max_length_true s :
  within_max_length s = true ↔ Py.len s ≤ max_length.
Proof. unfold within_max_length. apply Z.leb_le. Qed.

Lemma within_max_length_false s :
  within_max_length s = false ↔ max_length < Py.len s.
Proof. unfold within_max_length. apply Z.leb_gt. Qed.

(** The validating constructors yield valid requests, and only those. *)
Lemma TodoItemCreate_new_valid d r :
  TodoItemCreate_new d = Ok r ↔ r = mkTodoItemCreate d ∧ valid_create r.
Proof.
  unfold TodoItemCreate_new, valid_create.
  destruct (within_max_length d) eqn:Hd.
  - apply within_max_length_true in Hd. split.
    + by intros [= <-].
    + by intros [-> _].
  - apply within_max_length_false in Hd. split; [done|].
    intros [-> Hv]. simpl in Hv. lia.
Qed.

Lemma TodoItemUpdate_new_valid d c r :
  TodoItemUpdate_new d c = Ok r ↔ r = mkTodoItemUpdate d c ∧ valid_update r.
Proof.
  unfold TodoItemUpdate_new, valid_update. destruct d as [s|].
  - destruct (within_max_length s) eqn:Hd.
    + apply within_max_length_true in Hd. split.
      * intros [= <-]. split; [done|]. simpl. by intros ? [= <-].
      * by intros [-> _].
    + apply within_max_length_false in Hd. split; [done|].
      intros [-> Hv]. specialize (Hv s eq_refl). lia.
  - split.
    + intros [= <-]. split; [done|]. by intros ? [=].
    + by intros [-> _].
Qed.

Lemma create_todo_accepted now r db :
  valid_create r →
  create_todo now r db =
    (Ok (created_item (next_id db) now r),
     {| table := <[next_id db := created_item (next_id db) now r]> (table db);
        next_id := next_id db + 1 |}).
Proof.
  intros Hr. apply within_max_length_true in Hr.
  unfold create_todo. session_unfold. rewrite Hr. simpl.
  by rewrite lookup_insert_eq.
Qed.

Lemma create_todo_rejected now r db :
  max_length < Py.len (create_description r) →
  create_todo now r db = (Raise ValidationRejected, db).
Proof.
  intros Hr. apply within_max_length_false in Hr.
  unfold create_todo. session_unfold. by rewrite Hr.
Qed.

Lemma update_todo_absent now k r db :
  table db !! k = None → update_todo now k r db = (Ok None, db).
Proof. intros Hk. unfold update_todo. session_unfold. by rewrite Hk. Qed.

Lemma update_todo_present now k r db t :
  table db !! k = Some t →
  Py.len (description (apply_update r t)) ≤ max_length →
  update_todo now k r db =
    (Ok (Some (updated_item now r t)),
     {| table := <[k := updated_item now r t]> (table db);
        next_id := next_id db |}).
Proof.
  intros Hk Hd. apply within_max_length_true in Hd.
  unfold update_todo. session_unfold. rewrite Hk. simpl. rewrite Hd. simpl.
  by rewrite lookup_insert_eq.
Qed.

Lemma update_todo_rejected now k r db t :
  table db !! k = Some t →
  max_length < Py.len (description (apply_update r t)) →
  update_todo now k r db = (Raise ValidationRejected, db).
Proof.
  intros Hk Hd. apply within_max_length_false in Hd.
  unfold update_todo. session_unfold. rewrite Hk. simpl. by rewrite Hd.
Qed.

Lemma toggle_absent now k db :
  table db !! k = None → toggle_todo_completion now k db = (Ok None, db).
Proof. intros Hk. unfold toggle_todo_completion. session_unfold. by rewrite Hk. Qed.

Lemma toggle_present now k db t :
  table db !! k = Some t →
  Py.len (description t) ≤ max_length →
  toggle_todo_completion now k db =
    (Ok (Some (toggled_item now t)),
     {| table := <[k := toggled_item now t]> (table db);
        next_id := next_id db |}).
Proof.
  intros Hk Hd. apply within_max_length_true in Hd.
  unfold toggle_todo_completion. session_unfold. rewrite Hk. simpl.
  rewrite Hd. simpl. by rewrite lookup_insert_eq.
Qed.

Lemma toggle_rejected now k db t :
  table db !! k = Some t →
  max_length < Py.len (description t) →
  toggle_todo_completion now k db = (Raise ValidationRejected, db).
Proof.
  intros Hk Hd. apply within_max_length_false in Hd.
  unfold toggle_todo_completion. session_unfold. rewrite Hk. simpl.
  by rewrite Hd.
Qed.

Lemma delete_todo_absent k db :
  table db !! k = None → delete_todo k db = (Ok false, db).
Proof. intros Hk. unfold delete_todo. session_unfold. by rewrite Hk. Qed.

Lemma delete_todo_present k db t :
  table db !! k = Some t →
  delete_todo k db =
    (Ok true, {| table := delete k (table db); next_id := next_id db |}).
Proof. intros Hk. unfold delete_todo. session_unfold. by rewrite Hk. Qed.

Lemma get_all_todos_eq db :
  get_all_todos db = (Ok (merge_sort created_desc (rows db)), db).
Proof. reflexivity. Qed.

Lemma description_apply_update r t :
  description (apply_update r t) = default (description t) (update_description r).
Proof. unfold apply_update. by destruct r as [[d|] [c|]]. Qed.

Lemma completed_apply_update r t :
  completed (apply_update r t) = default (completed t) (update_completed r).
Proof. unfold apply_update. by destruct r as [[d|] [c|]]. Qed.

Lemma apply_update_frame r t :
  id (apply_update r t) = id t ∧
  created_at (apply_update r t) = created_at t ∧
  updated_at (apply_update r t) = updated_at t.
Proof. unfold apply_update. by destruct r as [[d|] [c|]]. Qed.

(** A valid request on a row that fits the column yields a row that fits. *)
Lemma apply_update_fits r t :
  valid_update r →
  Py.len (description t) ≤ max_length →
  Py.len (description (apply_update r t)) ≤ max_length.
Proof.
  intros Hr Ht. rewrite description_apply_update.
  destruct (update_description r) as [d|] eqn:Hd; simpl; [by apply Hr | done].
Qed.

(** ** The invariants hold in every session *)

Lemma inv_empty : inv (empty_db, no_history).
Proof.
  split; [|split].
  - apply map_Forall_empty.
  - intros k t Hk. simpl in Hk. by rewrite lookup_empty in Hk.
  - split; simpl; intros k Hk.
    + rewrite lookup_empty in Hk. by destruct Hk.
    + set_solver.
Qed.

Lemma run_snoc cs c : run (cs ++ [c]) = step (run cs) c.
Proof. unfold run. by rewrite foldl_app. Qed.

Lemma inv_create now r s : inv s → inv (step s (CallCreate now r)).
Proof.
  destruct s as [db h]. intros (Hs & Ht & Hh1 & Hh2).
  unfold step, exec, record. simpl in *.
  destruct (Z.le_gt_cases (Py.len (create_description r)) max_length) as [Hr|Hr].
  - rewrite (create_todo_accepted now r db Hr). simpl.
    split; [|split].
    + apply map_Forall_insert_2.
      * unfold row_ok, created_item. simpl. repeat split; [done | lia].
      * intros k t Hk. destruct (Hs k t Hk) as (? & ? & ?).
        unfold row_ok. simpl. repeat split; [done | done | lia].
    + intros k t. simpl. rewrite !lookup_insert. case_decide as Hk.
      * intros [= <-]. subst k. simpl. split; [done|].
        split; [|done]. intros _ Hm. apply Hh2 in Hm. lia.
      * intros Hl. by apply Ht.
    + split; simpl; intros k.
      * rewrite lookup_insert. case_decide as Hk; [lia|].
        intros Hc. apply Hh1 in Hc. lia.
      * intros Hm. apply Hh2 in Hm. lia.
  - rewrite (create_todo_rejected now r db); [|lia]. simpl. done.
Qed.

Lemma inv_write db h k t t' :
  store_ok db → stamps_ok db h → history_ok db h →
  table db !! k = Some t →
  id t' = id t → created_at t' = created_at t →
  Py.len (description t') ≤ max_length →
  is_Some (updated_at t') →
  inv ({| table := <[k := t']> (table db); next_id := next_id db |},
       {| created := created h; mutated := {[k]} ∪ mutated h |}).
Proof.
  intros Hs Ht [Hh1 Hh2] Hk Hid Hc Hd [u Hu].
  destruct (Hs k t Hk) as (Hidk & _ & Hlt).
  split; [|split]; simpl.
  - apply map_Forall_insert_2.
    + unfold row_ok. simpl. by rewrite Hid.
    + done.
  - intros j tj. simpl. rewrite lookup_insert. case_decide as Hj.
    + intros [= <-]. subst j. rewrite Hc. split; [by apply Ht|].
      rewrite Hu, elem_of_union, elem_of_singleton. intuition congruence.
    + intros Hl. destruct (Ht j tj Hl) as [? Hm]. split; [done|].
      rewrite Hm, elem_of_union, elem_of_singleton. intuition congruence.
  - split; simpl; [done|]. intros j Hj.
    apply elem_of_union in Hj as [Hj|Hj]; [|by apply Hh2].
    apply elem_of_singleton in Hj. by subst j.
Qed.

Lemma inv_update now k r s : inv s → inv (step s (CallUpdate now k r)).
Proof.
  destruct s as [db h]. intros (Hs & Ht & Hh).
  unfold step, exec, record. simpl in *.
  destruct (table db !! k) as [t|] eqn:Hk.
  - destruct (Z.le_gt_cases (Py.len (description (apply_update r t))) max_length)
      as [Hd|Hd].
    + rewrite (update_todo_present now k r db t Hk Hd). simpl.
      destruct (apply_update_frame r t) as (Hid & Hc & _).
      eapply inv_write; eauto.
    + rewrite (update_todo_rejected now k r db t Hk); [|lia]. done.
  - rewrite (update_todo_absent now k r db Hk). done.
Qed.

Lemma inv_toggle now k s : inv s → inv (step s (CallToggle now k)).
Proof.
  destruct s as [db h]. intros (Hs & Ht & Hh).
  unfold step, exec, record. simpl in *.
  destruct (table db !! k) as [t|] eqn:Hk.
  - destruct (Hs k t Hk) as (_ & Hd & _).
    rewrite (toggle_present now k db t Hk Hd). simpl.
    eapply inv_write; eauto.
  - rewrite (toggle_absent now k db Hk). done.
Qed.

Lemma inv_delete k s : inv s → inv (step s (CallDelete k)).
Proof.
  destruct s as [db h]. intros (Hs & Ht & Hh).
  unfold step, exec, record. simpl in *.
  destruct (table db !! k) as [t|] eqn:Hk.
  - rewrite (delete_todo_present k db t Hk). simpl.
    split; [|split]; simpl.
    + apply map_Forall_delete. done.
    + intros j tj. simpl. intros Hj.
      apply lookup_delete_Some in Hj as [_ Hj]. by apply Ht.
    + done.
  - rewrite (delete_todo_absent k db Hk). done.
Qed.

Lemma inv_step s c : inv s → inv (step s c).
Proof.
  destruct c.
  - apply inv_create.
  - destruct s; done.
  - destruct s; done.
  - apply inv_update.
  - apply inv_toggle.
  - apply inv_delete.
  - destruct s; done.
Qed.

Lemma inv_run cs : inv (run cs).
Proof.
  induction cs as [|c cs IH] using rev_ind.
  - apply inv_empty.
  - rewrite run_snoc. by apply inv_step.
Qed.

(** ** Rows of a store in a session *)

Lemma session_store_ok cs : store_ok (run cs).1.
Proof. by destruct (inv_run cs) as (? & _). Qed.

Lemma session_row_fits cs k t :
  table (run cs).1 !! k = Some t → Py.len (description t) ≤ max_length.
Proof. intros Hk. by destruct (session_store_ok cs k t Hk) as (_ & ? & _). Qed.

(** ** Absent ids *)

(** C4: for an id with no row, [get_todo_by_id], [update_todo] and
    [toggle_todo_completion] return [None] and [delete_todo] returns
    [False]; none of them raises, and each leaves the whole store (table and
    id generator) as it was, whatever the request holds. *)
Theorem absent_id_is_not_an_error (now : Py.datetime) (k : Z)
    (r : TodoItemUpdate) (db : Db) :
  table db !! k = None →
  get_todo_by_id k db = (Ok None, db) ∧
  update_todo now k r db = (Ok None, db) ∧
  toggle_todo_completion now k db = (Ok None, db) ∧
  delete_todo k db = (Ok false, db).
Proof.
  intros Hk. repeat split.
  - unfold get_todo_by_id, session_get. by rewrite Hk.
  - by apply update_todo_absent.
  - by apply toggle_absent.
  - by apply delete_todo_absent.
Qed.

(** ** Deletion *)

(** C9: deleting the id of a stored row returns [True] and removes exactly
    that row; afterwards looking the id up returns [None] and deleting it
    again returns [False]. *)
Theorem delete_is_final (k : Z) (db : Db) (t : TodoItem) :
  table db !! k = Some t →
  ∃ db',
    delete_todo k db = (Ok true, db') ∧
    table db' = delete k (table db) ∧
    get_todo_by_id k db' = (Ok None, db') ∧
    delete_todo k db' = (Ok false, db').
Proof.
  intros Hk. eexists. split; [by eapply delete_todo_present|].
  split; [done|].
  assert (Hgone : delete k (table db) !! k = None) by apply lookup_delete_eq.
  split.
  - unfold get_todo_by_id, session_get. simpl. by rewrite Hgone.
  - by apply delete_todo_absent.
Qed.

(** ** Toggling *)

Lemma toggle_row now k db t :
  table db !! k = Some t →
  Py.len (description t) ≤ max_length →
  ∃ db',
    toggle_todo_completion now k db = (Ok (Some (toggled_item now t)), db') ∧
    table db' = <[k := toggled_item now t]> (table db) ∧
    next_id db' = next_id db.
Proof.
  intros Hk Hd. eexists. split; [by apply toggle_present|]. done.
Qed.

(** C10: in every session, toggling a stored item returns and stores a row
    that differs from the old one at most in [completed] and [updated_at]:
    [id], [description] and [created_at] are the old ones, and the row of
    every other id is the row it was. *)
Theorem toggle_changes_only_completed_and_updated_at
    (cs : list call) (now : Py.datetime) (k : Z) (t : TodoItem) :
  table (run cs).1 !! k = Some t →
  ∃ t' db',
    toggle_todo_completion now k (run cs).1 = (Ok (Some t'), db') ∧
    table db' !! k = Some t' ∧
    id t' = id t ∧
    description t' = description t ∧
    created_at t' = created_at t ∧
    (∀ j, j ≠ k → table db' !! j = table (run cs).1 !! j).
Proof.
  intros Hk.
  destruct (toggle_row now k _ t Hk (session_row_fits cs k t Hk))
    as (db' & Hrun & Htab & _).
  exists (toggled_item now t), db'. split; [done|].
  rewrite Htab. split; [apply lookup_insert_eq|].
  repeat split. intros j Hj. by apply lookup_insert_ne.
Qed.

(** C5: in every session, toggling a stored item negates [completed] and
    stamps [updated_at] with the time of the call; a second toggle brings
    [completed] back to the value it had and stamps [updated_at] again,
    with the time of the second call. *)
Theorem toggle_twice_restores_completed
    (cs : list call) (now1 now2 : Py.datetime) (k : Z) (t : TodoItem) :
  table (run cs).1 !! k = Some t →
  ∃ t1 db1 t2 db2,
    toggle_todo_completion now1 k (run cs).1 = (Ok (Some t1), db1) ∧
    table db1 !! k = Some t1 ∧
    completed t1 = negb (completed t) ∧
    updated_at t1 = Some now1 ∧
    toggle_todo_completion now2 k db1 = (Ok (Some t2), db2) ∧
    table db2 !! k = Some t2 ∧
    completed t2 = completed t ∧
    updated_at t2 = Some now2.
Proof.
  intros Hk. pose proof (session_row_fits cs k t Hk) as Hd.
  destruct (toggle_row now1 k _ t Hk Hd) as (db1 & Hrun1 & Htab1 & _).
  assert (Hk1 : table db1 !! k = Some (toggled_item now1 t))
    by (rewrite Htab1; apply lookup_insert_eq).
  destruct (toggle_row now2 k db1 _ Hk1 Hd) as (db2 & Hrun2 & Htab2 & _).
  exists (toggled_item now1 t), db1, (toggled_item now2 (toggled_item now1 t)), db2.
  repeat split; try done.
  - rewrite Htab2. apply lookup_insert_eq.
  - simpl. apply negb_involutive.
Qed.

(** ** Updating *)

(** C3: in every session, updating a stored item with a request that passed
    validation returns and stores the old row with each field the request
    carries overwritten, each field it leaves out kept, and [updated_at] set
    to the time of the call, whatever the request carries; [id] and
    [created_at] are kept. *)
Theorem update_overwrites_present_fields
    (cs : list call) (now : Py.datetime) (k : Z) (r : TodoItemUpdate)
    (t : TodoItem) :
  valid_update r →
  table (run cs).1 !! k = Some t →
  ∃ t' db',
    update_todo now k r (run cs).1 = (Ok (Some t'), db') ∧
    table db' !! k = Some t' ∧
    description t' = default (description t) (update_description r) ∧
    completed t' = default (completed t) (update_completed r) ∧
    updated_at t' = Some now ∧
    id t' = id t ∧
    created_at t' = created_at t.
Proof.
  intros Hr Hk. pose proof (session_row_fits cs k t Hk) as Hd.
  exists (updated_item now r t). eexists.
  split; [apply (update_todo_present now k r _ t Hk), apply_update_fits; done|].
  simpl. split; [apply lookup_insert_eq|].
  destruct (apply_update_frame r t) as (Hid & Hc & _).
  by rewrite description_apply_update, completed_apply_update.
Qed.

(** ** Listing and counting *)

Lemma count_completed_filter todos :
  count_completed todos =
  Z.of_nat (length (filter (λ t, completed t = true) todos)).
Proof.
  induction todos as [|t todos IH]; [done|].
  simpl. rewrite filter_cons. destruct (completed t) eqn:Hc.
  - rewrite decide_True by done. simpl length. lia.
  - rewrite decide_False by congruence. done.
Qed.

Lemma count_completed_rows db :
  length (filter (λ t, completed t = true) (rows db)) =
  size (filter (λ kt : Z * TodoItem, completed kt.2 = true) (table db)).
Proof.
  unfold rows. destruct db as [m n]. simpl. clear n.
  induction m as [|k t m Hk IH] using map_ind.
  - by rewrite map_filter_empty, map_to_list_empty, map_size_empty.
  - rewrite (map_to_list_insert m k t Hk). rewrite fmap_cons, filter_cons. simpl.
    destruct (decide (completed t = true)) as [Hc|Hc].
    + rewrite map_filter_insert_True by done.
      rewrite map_size_insert_None by (by rewrite map_lookup_filter_None; left).
      simpl. by rewrite IH.
    + rewrite map_filter_insert_False by done.
      by rewrite delete_id.
Qed.

Lemma get_all_todos_perm db : merge_sort created_desc (rows db) ≡ₚ rows db.
Proof. apply merge_sort_Permutation. Qed.

Lemma length_rows db : length (rows db) = size (table db).
Proof. unfold rows. by rewrite length_fmap, length_map_to_list. Qed.

Lemma elem_of_rows db t : t ∈ rows db ↔ ∃ k, table db !! k = Some t.
Proof.
  unfold rows. rewrite list_elem_of_fmap. split.
  - intros ([k t'] & -> & Hin). exists k. by apply elem_of_map_to_list.
  - intros [k Hk]. exists (k, t). split; [done|]. by apply elem_of_map_to_list.
Qed.

(** C6: [get_all_todos] never raises and leaves the store alone; the list
    it returns is a rearrangement of the rows of the table (one entry per
    stored id, so it has as many entries as the table has rows and holds
    exactly the stored items), and no entry is older than any entry after
    it.  Nothing is said about the order of entries with equal
    [created_at].  On a table without rows the list is empty. *)
Theorem get_all_todos_newest_first :
  (∀ db : Db, ∃ todos : list TodoItem,
     get_all_todos db = (Ok todos, db) ∧
     todos ≡ₚ rows db ∧
     length todos = size (table db) ∧
     (∀ t, t ∈ todos ↔ ∃ k, table db !! k = Some t) ∧
     StronglySorted (λ a b, created_at b ≤ created_at a) todos) ∧
  (∀ n : Z,
     get_all_todos {| table := ∅; next_id := n |}
     = (Ok [], {| table := ∅; next_id := n |})).
Proof.
  split.
  - intros db. exists (merge_sort created_desc (rows db)).
    pose proof (get_all_todos_perm db) as Hp.
    split; [apply get_all_todos_eq|]. split; [done|]. split; [|split].
    + by rewrite Hp, length_rows.
    + intros t. by rewrite Hp, elem_of_rows.
    + apply (StronglySorted_merge_sort created_desc).
  - intros n. reflexivity.
Qed.

(** ** Statistics *)

(** The integer nearest to [n / d] is at most half a unit away from it. *)
Lemma round_half_even_nearest n d :
  0 < d → 2 * Z.abs (Py.round_half_even n d * d - n) ≤ d.
Proof.
  intros Hd. unfold Py.round_half_even.
  pose proof (Z.div_mod n d ltac:(lia)) as Hn.
  pose proof (Z.mod_pos_bound n d Hd) as Hr.
  destruct (Z.compare_spec (2 * (n `mod` d)) d) as [He|Hl|Hg];
    [destruct (Z.even (n `div` d))|..]; nia.
Qed.

(** On a tie the even neighbour is taken. *)
Lemma round_half_even_tie n d :
  0 < d → 2 * (n `mod` d) = d → Z.even (Py.round_half_even n d) = true.
Proof.
  intros Hd He. unfold Py.round_half_even. rewrite He, Z.compare_refl.
  destruct (Z.even (n `div` d)) eqn:Hq; [done|].
  rewrite Z.even_add, Hq. done.
Qed.

(** The decimal digits taken for a binary fraction [m * 2^e], [e < 0], are
    within half a unit of the last place of its value. *)
Lemma decimal_units_nearest ndigits m e :
  e < 0 →
  2 * Z.abs (Py.decimal_units ndigits m e * 2 ^ (- e) - 10 ^ ndigits * Z.pos m)
  ≤ 2 ^ (- e).
Proof.
  intros He. unfold Py.decimal_units.
  destruct (0 <=? e) eqn:Hle; [apply Z.leb_le in Hle; lia|].
  apply round_half_even_nearest. apply Z.pow_pos_nonneg; lia.
Qed.

Lemma count_completed_perm todos1 todos2 :
  todos1 ≡ₚ todos2 → count_completed todos1 = count_completed todos2.
Proof. intros Hp. rewrite !count_completed_filter. by rewrite Hp. Qed.


(** ** Creation *)

(** C2: in every session, creating an item from a request that passed
    validation returns the row that is stored: it has the description of
    the request, [completed] is [False], [updated_at] is [None], [created_at]
    is the time of the call, and its [id] is a number that no earlier
    creation of the session was given (deleted items included). *)
Theorem create_todo_returns_fresh_item
    (cs : list call) (now : Py.datetime) (r : TodoItemCreate) :
  valid_create r →
  ∃ (k : Z) (db' : Db),
    create_todo now r (run cs).1
    = (Ok {| id := Some k; description := create_description r;
             completed := false; created_at := now; updated_at := None |},
       db') ∧
    table db' !! k
    = Some {| id := Some k; description := create_description r;
              completed := false; created_at := now; updated_at := None |} ∧
    created (run cs).2 !! k = None ∧
    created (run (cs ++ [CallCreate now r])).2 !! k = Some now.
Proof.
  intros Hr. exists (next_id (run cs).1). eexists.
  split; [by apply create_todo_accepted|].
  simpl. split; [apply lookup_insert_eq|].
  destruct (inv_run cs) as (_ & _ & Hh & _). split.
  - apply eq_None_not_Some. intros Hc. apply Hh in Hc. lia.
  - rewrite run_snoc. unfold step, record. simpl.
    rewrite (create_todo_accepted now r _ Hr). simpl.
    apply lookup_insert_eq.
Qed.

(** ** The description bound *)

(** C7: a description of exactly 500 units passes the construction of both
    request shapes, and [create_todo] stores and returns it as it is.  A
    longer description is rejected when either request shape is constructed
    and when a row carrying it is written by insert or by update; a call of
    [create_todo] that reaches the store with it raises, and in each case
    the store is left as it was. *)
Theorem description_length_boundary
    (now : Py.datetime) (db : Db) (d d' : string) (c : option bool)
    (k : Z) (t : TodoItem) :
  Py.len d = 500 →
  500 < Py.len d' →
  (TodoItemCreate_new d = Ok (mkTodoItemCreate d) ∧
   TodoItemUpdate_new (Some d) c = Ok (mkTodoItemUpdate (Some d) c) ∧
   ∃ (item : TodoItem) (db' : Db),
     create_todo now (mkTodoItemCreate d) db = (Ok item, db') ∧
     description item = d ∧
     table db' !! next_id db = Some item) ∧
  (TodoItemCreate_new d' = Raise ValidationRejected ∧
   TodoItemUpdate_new (Some d') c = Raise ValidationRejected ∧
   session_insert (set_description d' t) db = (Raise ValidationRejected, db) ∧
   session_update k (set_description d' t) db = (Raise ValidationRejected, db) ∧
   create_todo now (mkTodoItemCreate d') db = (Raise ValidationRejected, db)).
Proof.
  intros Hd Hd'.
  assert (Hfit : within_max_length d = true)
    by (apply within_max_length_true; unfold max_length; lia).
  assert (Hlong : within_max_length d' = false)
    by (apply within_max_length_false; unfold max_length; lia).
  split.
  - unfold TodoItemCreate_new, TodoItemUpdate_new. rewrite Hfit.
    split; [done|]. split; [done|].
    eexists. eexists. split.
    + apply create_todo_accepted. unfold valid_create, max_length. simpl. lia.
    + simpl. split; [done|]. apply lookup_insert_eq.
  - unfold TodoItemCreate_new, TodoItemUpdate_new, session_insert,
      session_update. simpl. rewrite Hlong. repeat split.
    apply create_todo_rejected. simpl. unfold max_length. lia.
Qed.

(** ** Time stamps *)

Lemma record_keeps_created c db h k v :
  history_ok db h →
  created h !! k = Some v →
  created (record c db h) !! k = Some v.
Proof.
  intros [Hh _] Hk.
  assert (Hlt : k < next_id db) by (apply Hh; by rewrite Hk).
  destruct c as [now r| | |now j r|now j|j|]; simpl; try done.
  - destruct (Z.le_gt_cases (Py.len (create_description r)) max_length) as [Hr|Hr].
    + rewrite (create_todo_accepted now r db Hr). simpl.
      rewrite lookup_insert_ne by lia. done.
    + rewrite (create_todo_rejected now r db) by lia. done.
  - destruct (update_todo now j r db) as [[[t|]|e] db']; done.
  - destruct (toggle_todo_completion now j db) as [[[t|]|e] db']; done.
Qed.

Lemma run_keeps_created cs cs' k v :
  created (run cs).2 !! k = Some v →
  created (run (cs ++ cs')).2 !! k = Some v.
Proof.
  intros Hk. induction cs' as [|c cs' IH] using rev_ind.
  - by rewrite app_nil_r.
  - rewrite app_assoc, run_snoc. unfold step. simpl.
    apply record_keeps_created; [|done].
    by destruct (inv_run (cs ++ cs')) as (_ & _ & ?).
Qed.

(** C8: in every session and for every stored row, [created_at] is the
    value on record from the call that created the id; however the session
    goes on, the record stays and the row, as long as it is stored, has the
    same [created_at]; and [updated_at] is [None] exactly when no call of
    [update_todo] or [toggle_todo_completion] has returned the item since
    it was created. *)
Theorem timestamps_follow_the_history
    (cs : list call) (k : Z) (t : TodoItem) :
  table (run cs).1 !! k = Some t →
  created (run cs).2 !! k = Some (created_at t) ∧
  (updated_at t = None ↔ k ∉ mutated (run cs).2) ∧
  (∀ cs' : list call,
     created (run (cs ++ cs')).2 !! k = Some (created_at t) ∧
     ∀ t', table (run (cs ++ cs')).1 !! k = Some t' →
           created_at t' = created_at t).
Proof.
  intros Hk. destruct (inv_run cs) as (_ & Ht & Hh).
  destruct (Ht k t Hk) as [Hc Hm]. split; [done|]. split; [done|].
  intros cs'.
  pose proof (run_keeps_created cs cs' k _ Hc) as Hc'.
  split; [done|]. intros t' Hk'.
  destruct (inv_run (cs ++ cs')) as (_ & Ht' & _).
  destruct (Ht' k t' Hk') as [Hc'' _]. congruence.
Qed.

(** ** The scenarios of the test suite *)

(** [test_get_todo_stats_with_todos]: two of three items completed. *)
Example stats_two_of_three :
  (get_todo_stats (run sample_session).1).1
  = Ok {| total := 3; stats_completed := 2; pending := 1;
          completion_rate :=
            Py.Float (S754_finite false 4693595236650189 (-46)) |}.
Proof. vm_compute. reflexivity. Qed.

(** The rate above is the double nearest to 66.7. *)
Example rate_two_of_three :
  S754_finite false 4693595236650189 (-46)
  = SFdiv Py.prec Py.emax (Py.exact_int 667) (Py.exact_int 10).
Proof. vm_compute. reflexivity. Qed.

(** [test_todo_ordering_by_creation_date]: newest first. *)
Example listing_newest_first :
  (get_all_todos (run sample_session).1).1
  = Ok [ {| id := Some 3; description := "Todo 3"; completed := false;
            created_at := 30; updated_at := None |};
         sample_row;
         {| id := Some 1; description := "Todo 1"; completed := true;
            created_at := 10; updated_at := Some 40 |} ].
Proof. vm_compute. reflexivity. Qed.

(** ** Instances of the theorems on the sample session *)

Lemma absent_id_is_not_an_error_witness :
  table empty_db !! 999 = None ∧
  (get_todo_by_id 999 empty_db = (Ok None, empty_db) ∧
   update_todo 7 999 (mkTodoItemUpdate (Some "Updated") None) empty_db
   = (Ok None, empty_db) ∧
   toggle_todo_completion 7 999 empty_db = (Ok None, empty_db) ∧
   delete_todo 999 empty_db = (Ok false, empty_db)).
Proof.
  split; [reflexivity|].
  apply (absent_id_is_not_an_error 7 999
           (mkTodoItemUpdate (Some "Updated") None) empty_db).
  reflexivity.
Defined.

Lemma delete_is_final_witness :
  table (run sample_session).1 !! 2 = Some sample_row ∧
  ∃ db',
    delete_todo 2 (run sample_session).1 = (Ok true, db') ∧
    table db' = delete 2 (table (run sample_session).1) ∧
    get_todo_by_id 2 db' = (Ok None, db') ∧
    delete_todo 2 db' = (Ok false, db').
Proof.
  split; [vm_compute; reflexivity|].
  apply (delete_is_final 2 (run sample_session).1 sample_row).
  vm_compute; reflexivity.
Defined.

Lemma toggle_changes_only_completed_and_updated_at_witness :
  table (run sample_session).1 !! 2 = Some sample_row ∧
  ∃ t' db',
    toggle_todo_completion 60 2 (run sample_session).1 = (Ok (Some t'), db') ∧
    table db' !! 2 = Some t' ∧
    id t' = id sample_row ∧
    description t' = description sample_row ∧
    created_at t' = created_at sample_row ∧
    (∀ j, j ≠ 2 → table db' !! j = table (run sample_session).1 !! j).
Proof.
  split; [vm_compute; reflexivity|].
  apply (toggle_changes_only_completed_and_updated_at sample_session 60 2 sample_row).
  vm_compute; reflexivity.
Defined.

Lemma toggle_twice_restores_completed_witness :
  table (run sample_session).1 !! 2 = Some sample_row ∧
  ∃ t1 db1 t2 db2,
    toggle_todo_completion 60 2 (run sample_session).1 = (Ok (Some t1), db1) ∧
    table db1 !! 2 = Some t1 ∧
    completed t1 = negb (completed sample_row) ∧
    updated_at t1 = Some 60 ∧
    toggle_todo_completion 70 2 db1 = (Ok (Some t2), db2) ∧
    table db2 !! 2 = Some t2 ∧
    completed t2 = completed sample_row ∧
    updated_at t2 = Some 70.
Proof.
  split; [vm_compute; reflexivity|].
  apply (toggle_twice_restores_completed sample_session 60 70 2 sample_row).
  vm_compute; reflexivity.
Defined.

Lemma update_overwrites_present_fields_witness :
  (valid_update (mkTodoItemUpdate (Some "Updated") None) ∧
   table (run sample_session).1 !! 2 = Some sample_row) ∧
  ∃ t' db',
    update_todo 60 2 (mkTodoItemUpdate (Some "Updated") None)
      (run sample_session).1 = (Ok (Some t'), db') ∧
    table db' !! 2 = Some t' ∧
    description t' = "Updated" ∧
    completed t' = completed sample_row ∧
    updated_at t' = Some 60 ∧
    id t' = id sample_row ∧
    created_at t' = created_at sample_row.
Proof.
  assert (Hr : valid_update (mkTodoItemUpdate (Some "Updated") None)).
  { intros s [= <-]. unfold Py.len, max_length. simpl. lia. }
  split; [split; [exact Hr | vm_compute; reflexivity]|].
  apply (update_overwrites_present_fields sample_session 60 2
           (mkTodoItemUpdate (Some "Updated") None) sample_row Hr).
  vm_compute; reflexivity.
Defined.

Lemma create_todo_returns_fresh_item_witness :
  valid_create (mkTodoItemCreate "Test todo item") ∧
  ∃ (k : Z) (db' : Db),
    create_todo 60 (mkTodoItemCreate "Test todo item") (run sample_session).1
    = (Ok {| id := Some k; description := "Test todo item";
             completed := false; created_at := 60; updated_at := None |},
       db') ∧
    table db' !! k
    = Some {| id := Some k; description := "Test todo item";
              completed := false; created_at := 60; updated_at := None |} ∧
    created (run sample_session).2 !! k = None ∧
    created (run (sample_session
                  ++ [CallCreate 60 (mkTodoItemCreate "Test todo item")])).2 !! k
    = Some 60.
Proof.
  assert (Hr : valid_create (mkTodoItemCreate "Test todo item")).
  { unfold valid_create, Py.len, max_length. simpl. lia. }
  split; [exact Hr|].
  apply (create_todo_returns_fresh_item sample_session 60
           (mkTodoItemCreate "Test todo item") Hr).
Defined.

Lemma description_length_boundary_witness :
  (Py.len (str_repeat 500) = 500 ∧ 500 < Py.len (str_repeat 501)) ∧
  (TodoItemCreate_new (str_repeat 500) = Ok (mkTodoItemCreate (str_repeat 500)) ∧
   TodoItemUpdate_new (Some (str_repeat 500)) None
   = Ok (mkTodoItemUpdate (Some (str_repeat 500)) None) ∧
   ∃ (item : TodoItem) (db' : Db),
     create_todo 60 (mkTodoItemCreate (str_repeat 500)) empty_db = (Ok item, db') ∧
     description item = str_repeat 500 ∧
     table db' !! next_id empty_db = Some item) ∧
  (TodoItemCreate_new (str_repeat 501) = Raise ValidationRejected ∧
   TodoItemUpdate_new (Some (str_repeat 501)) None = Raise ValidationRejected ∧
   session_insert (set_description (str_repeat 501) sample_row) empty_db
   = (Raise ValidationRejected, empty_db) ∧
   session_update 2 (set_description (str_repeat 501) sample_row) empty_db
   = (Raise ValidationRejected, empty_db) ∧
   create_todo 60 (mkTodoItemCreate (str_repeat 501)) empty_db
   = (Raise ValidationRejected, empty_db)).
Proof.
  assert (H500 : Py.len (str_repeat 500) = 500) by (vm_compute; reflexivity).
  assert (H501 : 500 < Py.len (str_repeat 501)) by (vm_compute; reflexivity).
  split; [by split|].
  apply (description_length_boundary 60 empty_db (str_repeat 500)
           (str_repeat 501) None 2 sample_row H500 H501).
Defined.

Lemma timestamps_follow_the_history_witness :
  table (run sample_session).1 !! 2 = Some sample_row ∧
  (created (run sample_session).2 !! 2 = Some (created_at sample_row) ∧
   (updated_at sample_row = None ↔ 2 ∉ mutated (run sample_session).2) ∧
   (∀ cs' : list call,
      created (run (sample_session ++ cs')).2 !! 2
      = Some (created_at sample_row) ∧
      ∀ t', table (run (sample_session ++ cs')).1 !! 2 = Some t' →
            created_at t' = created_at sample_row)).
Proof.
  split; [vm_compute; reflexivity|].
  apply (timestamps_follow_the_history sample_session 2 sample_row).
  vm_compute; reflexivity.
Defined.

(** * Further properties of the service *)

(** ** What a mutation leaves alone *)

Lemma session_key_is_used cs k :
  is_Some (table (run cs).1 !! k) → k < next_id (run cs).1.
Proof.
  intros [t Hk]. by destruct (session_store_ok cs k t Hk) as (_ & _ & ?).
Qed.

(** X1: in every session, creating an item from a request that passed
    validation writes a row under an id that had no row, [get_todo_by_id]
    on that id returns the item [create_todo] returned, and on every other
    id it returns what it returned before. *)
Theorem create_todo_adds_one_row
    (cs : list call) (now : Py.datetime) (r : TodoItemCreate) :
  valid_create r →
  ∃ (k : Z) (item : TodoItem) (db' : Db),
    create_todo now r (run cs).1 = (Ok item, db') ∧
    table (run cs).1 !! k = None ∧
    get_todo_by_id k db' = (Ok (Some item), db') ∧
    (∀ j, j ≠ k →
       get_todo_by_id j db' = (Ok (table (run cs).1 !! j), db')).
Proof.
  intros Hr. exists (next_id (run cs).1). eexists. eexists.
  split; [by apply create_todo_accepted|].
  unfold get_todo_by_id, session_get. simpl. split; [|split].
  - apply eq_None_not_Some. intros Hk.
    apply session_key_is_used in Hk. lia.
  - by rewrite lookup_insert_eq.
  - intros j Hj. by rewrite lookup_insert_ne.
Qed.

Lemma update_todo_store now k r db :
  (update_todo now k r db).2 = db ∨
  ∃ t, table db !! k = Some t ∧
       (update_todo now k r db).2
       = {| table := <[k := updated_item now r t]> (table db);
            next_id := next_id db |}.
Proof.
  destruct (table db !! k) as [t|] eqn:Hk.
  - destruct (Z.le_gt_cases (Py.len (description (apply_update r t))) max_length)
      as [Hd|Hd].
    + right. exists t. by rewrite (update_todo_present now k r db t Hk Hd).
    + left. by rewrite (update_todo_rejected now k r db t Hk) by lia.
  - left. by rewrite (update_todo_absent now k r db Hk).
Qed.

Lemma delete_todo_store k db :
  (delete_todo k db).2
  = {| table := delete k (table db); next_id := next_id db |}.
Proof.
  destruct (table db !! k) as [t|] eqn:Hk.
  - by rewrite (delete_todo_present k db t Hk).
  - rewrite (delete_todo_absent k db Hk). simpl.
    rewrite delete_id by done. by destruct db.
Qed.

(** X2: whatever the store, the id and the request, [update_todo] and
    [delete_todo] leave the row of every other id as it is, and neither
    moves the id generator. *)
Theorem update_and_delete_touch_one_row
    (now : Py.datetime) (k j : Z) (r : TodoItemUpdate) (db : Db) :
  j ≠ k →
  table (update_todo now k r db).2 !! j = table db !! j ∧
  table (delete_todo k db).2 !! j = table db !! j ∧
  next_id (update_todo now k r db).2 = next_id db ∧
  next_id (delete_todo k db).2 = next_id db.
Proof.
  intros Hj. rewrite delete_todo_store. simpl.
  rewrite lookup_delete_ne by done.
  destruct (update_todo_store now k r db) as [->|(t & _ & ->)]; simpl.
  - done.
  - by rewrite lookup_insert_ne.
Qed.

(** X9: on a stored item, [toggle_todo_completion] does what [update_todo]
    does with a request that carries only the negated [completed] flag:
    same result, same store, same error if the write is refused. *)
Theorem toggle_is_an_update_of_completed
    (now : Py.datetime) (k : Z) (db : Db) (t : TodoItem) :
  table db !! k = Some t →
  toggle_todo_completion now k db
  = update_todo now k (mkTodoItemUpdate None (Some (negb (completed t)))) db.
Proof.
  intros Hk. unfold toggle_todo_completion, update_todo. session_unfold.
  by rewrite Hk.
Qed.

(** ** Counting *)

Lemma get_todo_stats_eq db :
  ∃ s, get_todo_stats db = (Ok s, db) ∧
       total s = Z.of_nat (size (table db)) ∧
       stats_completed s =
         Z.of_nat (size (filter (λ kt : Z * TodoItem, completed kt.2 = true)
                                (table db))) ∧
       pending s = total s - stats_completed s ∧
       completion_rate s =
         Py.round (if 0 <? total s
                   then Py.mul_int
                          (Py.Float (Py.int_truediv (stats_completed s) (total s)))
                          100
                   else Py.Int 0) 1.
Proof.
  eexists. split; [reflexivity|]. simpl.
  pose proof (get_all_todos_perm db) as Hp.
  rewrite (count_completed_perm _ _ Hp), count_completed_filter,
    count_completed_rows.
  by rewrite Hp, length_rows.
Qed.

Lemma completed_rows_le db :
  (size (filter (λ kt : Z * TodoItem, completed kt.2 = true) (table db))
   ≤ size (table db))%nat.
Proof.
  rewrite <-count_completed_rows, <-length_rows. apply length_filter.
Qed.

(** X3: the counts of [get_todo_stats] are consistent on every store:
    [completed] and [pending] lie between 0 and [total], and they add up to
    [total]. *)
Theorem stats_counts_are_bounded (db : Db) :
  ∃ s : Stats,
    get_todo_stats db = (Ok s, db) ∧
    0 ≤ stats_completed s ≤ total s ∧
    0 ≤ pending s ≤ total s ∧
    stats_completed s + pending s = total s.
Proof.
  destruct (get_todo_stats_eq db) as (s & Hs & Ht & Hc & Hp & _).
  exists s. split; [done|].
  pose proof (completed_rows_le db). lia.
Qed.

Lemma done_rows_insert_fresh (m : gmap Z TodoItem) k t :
  m !! k = None →
  done_rows (<[k := t]> m)
  = (done_rows m + (if completed t then 1 else 0))%nat.
Proof.
  intros Hk. destruct (completed t) eqn:Hc.
  - rewrite map_filter_insert_True by done.
    rewrite map_size_insert_None by (by rewrite map_lookup_filter_None; left).
    lia.
  - rewrite map_filter_insert_False by (simpl; congruence).
    rewrite delete_id by done. lia.
Qed.

Lemma done_rows_delete (m : gmap Z TodoItem) k t :
  m !! k = Some t →
  done_rows m
  = (done_rows (delete k m) + (if completed t then 1 else 0))%nat.
Proof.
  intros Hk. rewrite <-(insert_delete_id m k t Hk) at 1.
  apply done_rows_insert_fresh, lookup_delete_eq.
Qed.

Lemma done_rows_overwrite (m : gmap Z TodoItem) k t t' :
  m !! k = Some t →
  (done_rows (<[k := t']> m) + (if completed t then 1 else 0))%nat
  = (done_rows m + (if completed t' then 1 else 0))%nat.
Proof.
  intros Hk. rewrite <-(insert_delete_eq m).
  rewrite done_rows_insert_fresh by apply lookup_delete_eq.
  rewrite (done_rows_delete m k t Hk). lia.
Qed.

(** X4: in every session, creating an item from a request that passed
    validation raises [total] and [pending] of [get_todo_stats] by one and
    leaves [completed] as it is. *)
Theorem create_todo_adds_a_pending_item
    (cs : list call) (now : Py.datetime) (r : TodoItemCreate) :
  valid_create r →
  ∃ (item : TodoItem) (db' : Db) (s s' : Stats),
    create_todo now r (run cs).1 = (Ok item, db') ∧
    get_todo_stats (run cs).1 = (Ok s, (run cs).1) ∧
    get_todo_stats db' = (Ok s', db') ∧
    total s' = total s + 1 ∧
    stats_completed s' = stats_completed s ∧
    pending s' = pending s + 1.
Proof.
  intros Hr.
  destruct (get_todo_stats_eq (run cs).1) as (s & Hs & Ht & Hc & Hp & _).
  eexists. eexists. exists s.
  edestruct get_todo_stats_eq as (s' & Hs' & Ht' & Hc' & Hp' & _).
  exists s'. split; [by apply create_todo_accepted|].
  split; [done|]. split; [exact Hs'|].
  simpl in Ht', Hc'.
  assert (Hfresh : table (run cs).1 !! next_id (run cs).1 = None).
  { apply eq_None_not_Some. intros Hk. apply session_key_is_used in Hk. lia. }
  rewrite map_size_insert_None in Ht' by done.
  rewrite done_rows_insert_fresh in Hc' by done. simpl in Hc'. lia.
Qed.

(** X5: in every session, toggling a stored item leaves [total] of
    [get_todo_stats] as it is and moves one item between the two other
    counts: from [pending] to [completed] when the item was pending, and
    back when it was completed. *)
Theorem toggle_moves_one_item_between_the_counts
    (cs : list call) (now : Py.datetime) (k : Z) (t : TodoItem) :
  table (run cs).1 !! k = Some t →
  ∃ (t' : TodoItem) (db' : Db) (s s' : Stats),
    toggle_todo_completion now k (run cs).1 = (Ok (Some t'), db') ∧
    get_todo_stats (run cs).1 = (Ok s, (run cs).1) ∧
    get_todo_stats db' = (Ok s', db') ∧
    total s' = total s ∧
    stats_completed s' = stats_completed s + (if completed t then -1 else 1) ∧
    pending s' = pending s - (if completed t then -1 else 1).
Proof.
  intros Hk.
  destruct (get_todo_stats_eq (run cs).1) as (s & Hs & Ht & Hc & Hp & _).
  eexists. eexists. exists s.
  edestruct get_todo_stats_eq as (s' & Hs' & Ht' & Hc' & Hp' & _).
  exists s'.
  split; [by apply (toggle_present now k _ t Hk), (session_row_fits cs k t)|].
  split; [done|]. split; [exact Hs'|].
  simpl in Ht', Hc'.
  rewrite map_size_insert_Some in Ht' by done.
  pose proof (done_rows_overwrite (table (run cs).1) k t (toggled_item now t) Hk)
    as Hd.
  simpl in Hd. destruct (completed t); simpl in Hd; lia.
Qed.

(** X6: on every store, deleting a stored item lowers [total] of
    [get_todo_stats] by one, and with it [completed] when the item was
    completed and [pending] when it was not. *)
Theorem delete_todo_removes_the_item_from_the_counts
    (k : Z) (db : Db) (t : TodoItem) :
  table db !! k = Some t →
  ∃ (db' : Db) (s s' : Stats),
    delete_todo k db = (Ok true, db') ∧
    get_todo_stats db = (Ok s, db) ∧
    get_todo_stats db' = (Ok s', db') ∧
    total s' = total s - 1 ∧
    stats_completed s' = stats_completed s - (if completed t then 1 else 0) ∧
    pending s' = pending s - (if completed t then 0 else 1).
Proof.
  intros Hk.
  destruct (get_todo_stats_eq db) as (s & Hs & Ht & Hc & Hp & _).
  eexists. exists s.
  edestruct get_todo_stats_eq as (s' & Hs' & Ht' & Hc' & Hp' & _).
  exists s'. split; [by apply (delete_todo_present k db t)|].
  split; [done|]. split; [exact Hs'|].
  simpl in Ht', Hc'.
  assert (Hsz : size (delete k (table db)) = pred (size (table db)))
    by (apply map_size_delete_Some; eauto).
  pose proof (done_rows_delete (table db) k t Hk) as Hd.
  assert (size (table db) ≠ 0%nat).
  { intros H0. apply map_size_empty_inv in H0. rewrite H0 in Hk.
    by rewrite lookup_empty in Hk. }
  destruct (completed t); lia.
Qed.

(** ** Listing after a mutation *)

Lemma rows_insert_fresh db k t n :
  table db !! k = None →
  rows {| table := <[k := t]> (table db); next_id := n |} ≡ₚ t :: rows db.
Proof.
  intros Hk. unfold rows. simpl. by rewrite map_to_list_insert.
Qed.

Lemma rows_delete db k t n :
  table db !! k = Some t →
  rows db ≡ₚ t :: rows {| table := delete k (table db); next_id := n |}.
Proof.
  intros Hk. unfold rows. simpl.
  by rewrite <-(map_to_list_delete (table db) k t Hk).
Qed.

(** X7: in every session, an item created at a time later than the
    [created_at] of every stored item is the first entry of the next
    listing, and the entries after it are the items stored before. *)
Theorem newly_created_todo_is_listed_first
    (cs : list call) (now : Py.datetime) (r : TodoItemCreate) :
  valid_create r →
  (∀ k t, table (run cs).1 !! k = Some t → created_at t < now) →
  ∃ (item : TodoItem) (db' : Db) (rest : list TodoItem),
    create_todo now r (run cs).1 = (Ok item, db') ∧
    get_all_todos db' = (Ok (item :: rest), db') ∧
    rest ≡ₚ rows (run cs).1.
Proof.
  intros Hr Hnew.
  set (k := next_id (run cs).1).
  set (item := created_item k now r).
  assert (Hfresh : table (run cs).1 !! k = None).
  { apply eq_None_not_Some. intros Hk. apply session_key_is_used in Hk.
    unfold k in Hk. lia. }
  exists item. eexists.
  pose proof (create_todo_accepted now r (run cs).1 Hr) as Hrun.
  fold k in Hrun. fold item in Hrun.
  match type of Hrun with _ = (_, ?d) => set (db' := d) in * end.
  assert (Hp : merge_sort created_desc (rows db') ≡ₚ item :: rows (run cs).1).
  { rewrite get_all_todos_perm. by apply rows_insert_fresh. }
  assert (Hs : StronglySorted created_desc (merge_sort created_desc (rows db')))
    by apply (StronglySorted_merge_sort created_desc).
  assert (Hold : ∀ t, t ∈ rows (run cs).1 → created_at t < now).
  { intros t Ht. apply elem_of_rows in Ht as [j Hj]. by eapply Hnew. }
  destruct (merge_sort created_desc (rows db')) as [|h rest] eqn:Hl.
  { apply Permutation_nil_cons in Hp. done. }
  exists rest. rewrite get_all_todos_eq, Hl.
  apply StronglySorted_inv in Hs as [_ Hh].
  assert (Hin : item ∈ h :: rest) by (rewrite Hp; left).
  assert (Hhin : h ∈ item :: rows (run cs).1) by (rewrite <-Hp; left).
  assert (Heq : h = item).
  { apply elem_of_cons in Hhin as [?|Hhold]; [done|].
    apply Hold in Hhold.
    apply elem_of_cons in Hin as [?|Hrest]; [done|].
    rewrite Forall_forall in Hh. apply Hh in Hrest.
    unfold created_desc in Hrest. simpl in Hrest. lia. }
  subst h. split; [done|]. split; [done|].
  by apply Permutation_cons_inv in Hp.
Qed.

(** X8: on every store, deleting a stored item takes exactly that entry
    out of the listing: the listing before is the listing after with the
    deleted item put back. *)
Theorem deleted_todo_leaves_the_listing (k : Z) (db : Db) (t : TodoItem) :
  table db !! k = Some t →
  ∃ (db' : Db) (before after : list TodoItem),
    delete_todo k db = (Ok true, db') ∧
    get_all_todos db = (Ok before, db) ∧
    get_all_todos db' = (Ok after, db') ∧
    before ≡ₚ t :: after.
Proof.
  intros Hk. eexists. eexists. eexists.
  split; [by apply (delete_todo_present k db t)|].
  split; [apply get_all_todos_eq|]. split; [apply get_all_todos_eq|].
  rewrite !get_all_todos_perm. by apply rows_delete.
Qed.

Lemma rows_ids db :
  store_ok db → id <$> rows db = Some <$> (map_to_list (table db)).*1.
Proof.
  intros Hs. unfold rows. rewrite <-!list_fmap_compose.
  apply Forall_fmap_ext_1, Forall_forall. intros [k t] Hin.
  apply elem_of_map_to_list in Hin. simpl.
  by destruct (Hs k t Hin) as (? & _).
Qed.

(** X10: in every session, the listing and the lookup agree: no two
    entries of the listing carry the same [id], and an item is listed
    exactly when [get_todo_by_id] returns it for the [id] it carries. *)
Theorem listing_agrees_with_lookup (cs : list call) :
  ∃ todos : list TodoItem,
    get_all_todos (run cs).1 = (Ok todos, (run cs).1) ∧
    NoDup (id <$> todos) ∧
    (∀ t, t ∈ todos ↔
          ∃ k, id t = Some k ∧
               get_todo_by_id k (run cs).1 = (Ok (Some t), (run cs).1)).
Proof.
  eexists. split; [apply get_all_todos_eq|].
  pose proof (session_store_ok cs) as Hs.
  pose proof (get_all_todos_perm (run cs).1) as Hp. split.
  - rewrite Hp, (rows_ids _ Hs).
    apply (NoDup_fmap_2 Some), NoDup_fst_map_to_list.
  - intros t. rewrite Hp, elem_of_rows.
    unfold get_todo_by_id, session_get. split.
    + intros [k Hk]. exists k. destruct (Hs k t Hk) as (? & _).
      by rewrite Hk.
    + intros (k & _ & [= Hk]). by exists k.
Qed.

(** ** Repeating and undoing *)

Lemma apply_update_twice r u t :
  apply_update r (set_updated_at u (apply_update r t))
  = set_updated_at u (apply_update r t).
Proof. unfold apply_update. by destruct r as [[d|] [c|]]. Qed.

(** X11: in every session, sending the same validated request a second
    time changes nothing but the time stamp: the row after the second
    [update_todo] is the row after the first with [updated_at] set to the
    time of the second call. *)
Theorem update_todo_twice_changes_only_updated_at
    (cs : list call) (now1 now2 : Py.datetime) (k : Z) (r : TodoItemUpdate)
    (t : TodoItem) :
  valid_update r →
  table (run cs).1 !! k = Some t →
  ∃ (t1 : TodoItem) (db1 : Db) (db2 : Db),
    update_todo now1 k r (run cs).1 = (Ok (Some t1), db1) ∧
    update_todo now2 k r db1
    = (Ok (Some (set_updated_at (Some now2) t1)), db2) ∧
    table db2 !! k = Some (set_updated_at (Some now2) t1).
Proof.
  intros Hr Hk. pose proof (session_row_fits cs k t Hk) as Hd.
  pose proof (apply_update_fits r t Hr Hd) as Hd1.
  exists (updated_item now1 r t). eexists. eexists.
  split; [by apply update_todo_present|].
  assert (Hk1 : <[k := updated_item now1 r t]> (table (run cs).1) !! k
                = Some (updated_item now1 r t)) by apply lookup_insert_eq.
  assert (H2 : updated_item now2 r (updated_item now1 r t)
               = set_updated_at (Some now2) (updated_item now1 r t)).
  { unfold updated_item. by rewrite apply_update_twice. }
  rewrite <-H2. split.
  - apply update_todo_present; [done|].
    unfold updated_item. by rewrite apply_update_twice.
  - simpl. apply lookup_insert_eq.
Qed.

Lemma exec_keeps_gone c db k :
  table db !! k = None → k < next_id db →
  table (exec c db) !! k = None ∧ k < next_id (exec c db).
Proof.
  intros Hk Hlt.
  destruct c as [now r| |j|now j r|now j|j|]; simpl; try done.
  - destruct (Z.le_gt_cases (Py.len (create_description r)) max_length) as [Hr|Hr].
    + rewrite (create_todo_accepted now r db Hr). simpl.
      rewrite lookup_insert_ne by lia. split; [done | lia].
    + by rewrite (create_todo_rejected now r db) by lia.
  - destruct (update_todo_store now j r db) as [->|(t & Hj & ->)]; [done|].
    simpl. rewrite lookup_insert_ne by congruence. done.
  - destruct (table db !! j) as [t|] eqn:Hj.
    + destruct (Z.le_gt_cases (Py.len (description t)) max_length) as [Hd|Hd].
      * rewrite (toggle_present now j db t Hj Hd). simpl.
        rewrite lookup_insert_ne by congruence. done.
      * by rewrite (toggle_rejected now j db t Hj) by lia.
    + by rewrite (toggle_absent now j db Hj).
  - rewrite delete_todo_store. simpl. split; [|done].
    destruct (decide (j = k)) as [->|Hjk].
    + apply lookup_delete_eq.
    + by rewrite lookup_delete_ne.
Qed.

(** X12: in every session, a deleted item does not come back: whatever
    calls follow the deletion, [get_todo_by_id] on its id returns [None].
    New rows are only written by [create_todo], under an id of the
    generator, which hands out no id twice. *)
Theorem deleted_todo_never_comes_back
    (cs cs' : list call) (k : Z) (t : TodoItem) :
  table (run cs).1 !! k = Some t →
  get_todo_by_id k (run (cs ++ CallDelete k :: cs')).1
  = (Ok None, (run (cs ++ CallDelete k :: cs')).1).
Proof.
  intros Hk. unfold get_todo_by_id, session_get.
  assert (Hlt : k < next_id (run cs).1) by (apply session_key_is_used; eauto).
  enough (Hgone : table (run (cs ++ CallDelete k :: cs')).1 !! k = None ∧
                  k < next_id (run (cs ++ CallDelete k :: cs')).1)
    by (by rewrite (proj1 Hgone)).
  induction cs' as [|c cs' IH] using rev_ind.
  - rewrite run_snoc. unfold step. simpl. rewrite delete_todo_store. simpl.
    split; [apply lookup_delete_eq | done].
  - replace (cs ++ CallDelete k :: cs' ++ [c])
      with ((cs ++ CallDelete k :: cs') ++ [c])
      by (by rewrite <-app_assoc).
    rewrite run_snoc. unfold step. simpl.
    destruct IH as [IH1 IH2]. by apply exec_keeps_gone.
Qed.

(** * Properties of the page handlers *)

(** ** Stripping *)

Lemma lstrip_blank s :
  Forall (λ c, PyStr.isspace c = true) (PyStr.chars s) → PyStr.lstrip s = "".
Proof.
  induction s as [|c s IH]; simpl; [done|].
  intros Hs. apply Forall_cons in Hs as [Hc Hs]. rewrite Hc. by apply IH.
Qed.

Lemma rstrip_blank s :
  PyStr.rstrip s = "" ↔ Forall (λ c, PyStr.isspace c = true) (PyStr.chars s).
Proof.
  induction s as [|c s IH]; simpl; [by split|].
  destruct (PyStr.rstrip s) as [|c' r] eqn:Hr.
  - destruct (PyStr.isspace c) eqn:Hc.
    + split; [|done]. intros _. constructor; [done|]. by apply IH.
    + split; [done|]. intros Hs. apply Forall_cons in Hs as [? _]. congruence.
  - split; [done|]. intros Hs. apply Forall_cons in Hs as [_ Hs].
    apply IH in Hs. done.
Qed.

Lemma lstrip_chars s :
  ∃ l, PyStr.chars s = l ++ PyStr.chars (PyStr.lstrip s) ∧
       Forall (λ c, PyStr.isspace c = true) l.
Proof.
  induction s as [|c s (l & Hl & Hsp)]; simpl.
  - by exists [].
  - destruct (PyStr.isspace c) eqn:Hc.
    + exists (c :: l). split; [by rewrite Hl | by constructor].
    + by exists [].
Qed.

(** A string strips to the empty string exactly when it holds nothing but
    white space. *)
Lemma strip_blank s :
  PyStr.strip s = "" ↔ Forall (λ c, PyStr.isspace c = true) (PyStr.chars s).
Proof.
  unfold PyStr.strip. rewrite rstrip_blank.
  destruct (lstrip_chars s) as (l & Hl & Hsp). rewrite Hl, Forall_app.
  split; [done | by intros [_ ?]].
Qed.

Lemma rstrip_rstrip s : PyStr.rstrip (PyStr.rstrip s) = PyStr.rstrip s.
Proof.
  induction s as [|c s IH]; simpl; [done|].
  destruct (PyStr.rstrip s) as [|c' r] eqn:Hr.
  - destruct (PyStr.isspace c) eqn:Hc; simpl; [done|]. by rewrite Hc.
  - change (PyStr.rstrip (String c (String c' r))) with
      (match PyStr.rstrip (String c' r) with
       | EmptyString =>
           if PyStr.isspace c then EmptyString else String c EmptyString
       | r' => String c r'
       end).
    by rewrite IH.
Qed.

Lemma lstrip_head s :
  PyStr.lstrip s = "" ∨
  ∃ c s', PyStr.lstrip s = String c s' ∧ PyStr.isspace c = false.
Proof.
  induction s as [|c s IH]; simpl; [by left|].
  destruct (PyStr.isspace c) eqn:Hc; [done|]. right. by exists c, s.
Qed.

Lemma rstrip_head c s :
  PyStr.isspace c = false →
  ∃ r, PyStr.rstrip (String c s) = String c r.
Proof.
  intros Hc. simpl. destruct (PyStr.rstrip s) as [|c' r].
  - rewrite Hc. by exists "".
  - by eexists.
Qed.

(** Stripping a stripped string changes nothing. *)
Lemma strip_strip s : PyStr.strip (PyStr.strip s) = PyStr.strip s.
Proof.
  unfold PyStr.strip.
  destruct (lstrip_head s) as [->|(c & s' & -> & Hc)]; [done|].
  destruct (rstrip_head c s' Hc) as [r Hr]. rewrite Hr.
  assert (Hl : PyStr.lstrip (String c r) = String c r) by (simpl; by rewrite Hc).
  rewrite Hl, <-Hr. apply rstrip_rstrip.
Qed.

(** A stripped string that is not empty starts with a character that is
    not white space. *)
Lemma strip_head s c s' :
  PyStr.strip s = String c s' → PyStr.isspace c = false.
Proof.
  unfold PyStr.strip.
  destruct (lstrip_head s) as [->|(c0 & s0 & -> & Hc)]; [done|].
  destruct (rstrip_head c0 s0 Hc) as [r ->]. by intros [= <- _].
Qed.

Lemma rstrip_length s : Py.len (PyStr.rstrip s) ≤ Py.len s.
Proof.
  unfold Py.len. induction s as [|c s IH]; simpl; [done|].
  destruct (PyStr.rstrip s) as [|c' r]; [destruct (PyStr.isspace c)|];
    simpl in *; lia.
Qed.

Lemma lstrip_length s : Py.len (PyStr.lstrip s) ≤ Py.len s.
Proof.
  unfold Py.len. induction s as [|c s IH]; simpl; [done|].
  destruct (PyStr.isspace c); simpl in *; lia.
Qed.

Lemma strip_length s : Py.len (PyStr.strip s) ≤ Py.len s.
Proof.
  unfold PyStr.strip.
  pose proof (rstrip_length (PyStr.lstrip s)). pose proof (lstrip_length s).
  lia.
Qed.

(** ** Adding from the input field *)

(** X13: when the input field holds nothing but white space (or nothing at
    all), [add_new_todo] shows the warning that asks for a description and
    does nothing else: the store and the field are as before and the
    refresh callback is not run. *)
Theorem add_new_todo_ignores_blank_input
    (str : error → string) (now : Py.datetime)
    (refresh_callback : Handler unit) (p : Page) :
  Forall (λ c, PyStr.isspace c = true) (PyStr.chars (input_value p)) →
  add_new_todo str now refresh_callback p
  = (Ok (),
     {| store := store p; input_value := input_value p;
        notifications :=
          notifications p
          ++ [mkNotification "Please enter a todo description" "warning"] |}).
Proof.
  intros Hs. apply strip_blank in Hs.
  unfold add_new_todo. handler_unfold. by rewrite Hs.
Qed.

(** X14: when the input field, stripped of white space at both ends, is
    longer than 500 characters, [add_new_todo] shows the warning about the
    length and does nothing else: the store and the field are as before and
    the refresh callback is not run. *)
Theorem add_new_todo_refuses_long_input
    (str : error → string) (now : Py.datetime)
    (refresh_callback : Handler unit) (p : Page) :
  500 < Py.len (PyStr.strip (input_value p)) →
  add_new_todo str now refresh_callback p
  = (Ok (),
     {| store := store p; input_value := input_value p;
        notifications :=
          notifications p
          ++ [mkNotification
                "Todo description is too long (max 500 characters)"
                "warning"] |}).
Proof.
  intros Hd. unfold add_new_todo. handler_unfold.
  destruct (PyStr.strip (input_value p)) as [|c s] eqn:Hs.
  - unfold Py.len in Hd. simpl in Hd. lia.
  - apply Z.ltb_lt in Hd. by rewrite Hd.
Qed.

(** X15: when the stripped input is not empty and at most 500 characters
    long, [add_new_todo] creates an item whose description is the stripped
    input (so it is not empty and stripping it again changes nothing),
    clears the field, shows the success notification and then runs the
    refresh callback; if the callback raises, the failure notification is
    shown after the success one and the item stays created. *)
Theorem add_new_todo_stores_the_stripped_input
    (str : error → string) (now : Py.datetime)
    (refresh_callback : Handler unit) (p : Page) :
  PyStr.strip (input_value p) ≠ "" →
  Py.len (PyStr.strip (input_value p)) ≤ 500 →
  ∃ (item : TodoItem) (db' : Db),
    create_todo now (mkTodoItemCreate (PyStr.strip (input_value p))) (store p)
    = (Ok item, db') ∧
    table db' !! next_id (store p) = Some item ∧
    description item = PyStr.strip (input_value p) ∧
    PyStr.strip (description item) = description item ∧
    add_new_todo str now refresh_callback p
    = try_except refresh_callback
        (λ e, ui_notify ("Failed to add todo: " +:+ str e) "negative")
        {| store := db'; input_value := "";
           notifications :=
             notifications p
             ++ [mkNotification "Todo added successfully!" "positive"] |}.
Proof.
  intros Hne Hd.
  set (d := PyStr.strip (input_value p)) in *.
  assert (Hr : valid_create (mkTodoItemCreate d)) by done.
  pose proof (create_todo_accepted now _ (store p) Hr) as Hc.
  eexists. eexists. split; [exact Hc|].
  split; [simpl; apply lookup_insert_eq|]. split; [done|].
  split; [simpl; apply strip_strip|].
  unfold add_new_todo. handler_unfold. fold d.
  destruct d as [|c s] eqn:Hs; [done|].
  assert (Hlt : (500 <? Py.len (String c s)) = false) by (apply Z.ltb_ge; lia).
  rewrite Hlt. unfold TodoItemCreate_new.
  assert (Hfit : within_max_length (String c s) = true)
    by (by apply within_max_length_true).
  rewrite Hfit. rewrite Hc. simpl.
  by destruct (refresh_callback _) as [[[]|e] p'].
Qed.


(** ** Toggling and deleting from a card *)

(** X17: in every session, [toggle_todo_item] on a stored item toggles it
    in the store, announces the state the item is in afterwards
    ("completed" for an item that was pending, "reopened" for one that was
    completed) and then runs the callback; the input field is left alone. *)
Theorem toggle_todo_item_announces_the_new_state
    (cs : list call) (now : Py.datetime) (k : Z) (t : TodoItem)
    (on_change_callback : Handler unit) (v : string)
    (ns : list Notification) :
  table (run cs).1 !! k = Some t →
  ∃ db' : Db,
    toggle_todo_completion now k (run cs).1
    = (Ok (Some (toggled_item now t)), db') ∧
    toggle_todo_item now (Some k) on_change_callback
      {| store := (run cs).1; input_value := v; notifications := ns |}
    = on_change_callback
        {| store := db'; input_value := v;
           notifications :=
             ns ++ [mkNotification
                      (if completed t then "Todo item reopened!"
                       else "Todo item completed!")
                      "positive"] |}.
Proof.
  intros Hk. eexists.
  pose proof (toggle_present now k _ t Hk (session_row_fits cs k t Hk)) as Ht.
  split; [exact Ht|].
  unfold toggle_todo_item. handler_unfold. rewrite Ht. simpl.
  by destruct (completed t).
Qed.

(** X18: on every store, [delete_todo_item] on a stored item deletes its
    row and no other, shows the success notification and then runs the
    callback. *)
Theorem delete_todo_item_deletes_and_refreshes
    (k : Z) (t : TodoItem) (on_change_callback : Handler unit) (p : Page) :
  table (store p) !! k = Some t →
  delete_todo_item (Some k) on_change_callback p
  = on_change_callback
      {| store := {| table := delete k (table (store p));
                     next_id := next_id (store p) |};
         input_value := input_value p;
         notifications :=
           notifications p
           ++ [mkNotification "Todo item deleted successfully!" "positive"] |}.
Proof.
  intros Hk. unfold delete_todo_item. handler_unfold.
  by rewrite (delete_todo_present k (store p) t Hk).
Qed.

(** X19: a card whose item is gone: on an id without a row,
    [toggle_todo_item] and [delete_todo_item] show their failure
    notification, leave the store and the input field as they are and do
    not run the callback; without an id they do nothing at all. *)
Theorem handlers_report_a_missing_item
    (now : Py.datetime) (k : Z) (on_change_callback : Handler unit)
    (p : Page) :
  table (store p) !! k = None →
  toggle_todo_item now (Some k) on_change_callback p
  = (Ok (),
     {| store := store p; input_value := input_value p;
        notifications :=
          notifications p
          ++ [mkNotification "Failed to update todo item" "negative"] |}) ∧
  delete_todo_item (Some k) on_change_callback p
  = (Ok (),
     {| store := store p; input_value := input_value p;
        notifications :=
          notifications p
          ++ [mkNotification "Failed to delete todo item" "negative"] |}) ∧
  toggle_todo_item now None on_change_callback p = (Ok (), p) ∧
  delete_todo_item None on_change_callback p = (Ok (), p).
Proof.
  intros Hk. unfold toggle_todo_item, delete_todo_item. handler_unfold.
  rewrite (toggle_absent now k (store p) Hk).
  rewrite (delete_todo_absent k (store p) Hk). done.
Qed.

(** ** The two sections of the page *)

Lemma StronglySorted_filter {A} (R : relation A) (P : A → Prop)
    `{∀ x, Decision (P x)} (l : list A) :
  StronglySorted R l → StronglySorted R (filter P l).
Proof.
  induction 1 as [|x l Hl IH Hx]; [constructor|].
  rewrite filter_cons. destruct (decide (P x)); [|done].
  constructor; [done|].
  rewrite Forall_forall in Hx |- *. intros y Hy.
  apply list_elem_of_filter in Hy as [_ Hy]. by apply Hx.
Qed.

Lemma sections_split todos :
  (length (pending_todos todos) + length (completed_todos todos))%nat
  = length todos ∧
  pending_todos todos ++ completed_todos todos ≡ₚ todos.
Proof.
  unfold pending_todos, completed_todos.
  induction todos as [|t todos [IH1 IH2]]; [done|].
  rewrite !filter_cons. destruct (completed t) eqn:Hc.
  - rewrite decide_False by congruence. rewrite decide_True by done.
    simpl. split; [lia|]. by rewrite <-Permutation_middle, IH2.
  - rewrite decide_True by done. rewrite decide_False by congruence.
    simpl. split; [lia|]. by rewrite IH2.
Qed.

(** X20: on every store, the two sections [refresh_todos] shows split the
    listing: every listed item is in exactly one of them, the pending
    section holds the items that are not completed and as many as
    [get_todo_stats] reports under [pending], the completed section the
    others and as many as reported under [completed], and each section is
    ordered newest first. *)
Theorem sections_split_the_listing (db : Db) :
  ∃ (todos : list TodoItem) (s : Stats),
    get_all_todos db = (Ok todos, db) ∧
    get_todo_stats db = (Ok s, db) ∧
    pending_todos todos ++ completed_todos todos ≡ₚ todos ∧
    Forall (λ t, completed t = false) (pending_todos todos) ∧
    Forall (λ t, completed t = true) (completed_todos todos) ∧
    Z.of_nat (length (pending_todos todos)) = pending s ∧
    Z.of_nat (length (completed_todos todos)) = stats_completed s ∧
    StronglySorted (λ a b, created_at b ≤ created_at a) (pending_todos todos) ∧
    StronglySorted (λ a b, created_at b ≤ created_at a) (completed_todos todos).
Proof.
  eexists. eexists. split; [apply get_all_todos_eq|].
  split; [reflexivity|]. simpl.
  set (todos := merge_sort created_desc (rows db)).
  destruct (sections_split todos) as [Hlen Hperm].
  assert (Hs : StronglySorted created_desc todos)
    by apply (StronglySorted_merge_sort created_desc).
  rewrite count_completed_filter. fold (completed_todos todos).
  split; [done|].
  split; [apply Forall_forall; intros t Ht;
          by apply list_elem_of_filter in Ht as [? _]|].
  split; [apply Forall_forall; intros t Ht;
          by apply list_elem_of_filter in Ht as [? _]|].
  split; [lia|]. split; [done|].
  split; by apply (StronglySorted_filter created_desc).
Qed.

(** ** The two ends of the completion rate *)

Lemma int_truediv_self (p : positive) :
  Py.int_truediv (Z.pos p) (Z.pos p) = S754_finite false 4503599627370496 (-52).
Proof.
  unfold Py.int_truediv, Py.exact_int, SFdiv, SFdiv_core_binary.
  replace (Zdigits2 (Z.pos p) + 0 - (Zdigits2 (Z.pos p) + 0)) with 0 by lia.
  change (Z.min (fexp Py.prec Py.emax 0) (0 - 0)) with (-53).
  change (0 - 0 - -53) with 53.
  assert (Hq : Z.div_eucl (Z.shiftl (Z.pos p) 53) (Z.pos p)
               = (9007199254740992, 0)).
  { rewrite Z.shiftl_mul_pow2 by lia.
    pose proof (Z.div_eucl_eq (Z.pos p * 2 ^ 53) (Z.pos p) ltac:(lia)) as He.
    pose proof (Z.mod_pos_bound (Z.pos p * 2 ^ 53) (Z.pos p) ltac:(lia)) as Hb.
    unfold Z.modulo in Hb.
    destruct (Z.div_eucl (Z.pos p * 2 ^ 53) (Z.pos p)) as [q r].
    assert (q = 2 ^ 53) by nia. assert (r = 0) by nia. by subst. }
  match goal with
  | |- context [IntDef.Z.div_eucl ?a ?b] =>
      change (IntDef.Z.div_eucl a b)
        with (Z.div_eucl (Z.shiftl (Z.pos p) 53) (Z.pos p))
  end.
  rewrite Hq. unfold new_location.
  by destruct (Z.even (Z.pos p)).
Qed.

(** X21: the rate at its two ends, on every store with at least one row:
    when no row is completed, [completion_rate] is the float 0.0, and when
    every row is completed it is the float 100.0. *)
Theorem completion_rate_at_its_ends (db : Db) :
  table db ≠ ∅ →
  ∃ s : Stats,
    get_todo_stats db = (Ok s, db) ∧
    (stats_completed s = 0 →
     completion_rate s = Py.Float (S754_zero false)) ∧
    (stats_completed s = total s →
     completion_rate s
     = Py.Float (S754_finite false 7036874417766400 (-46))).
Proof.
  intros Hne.
  destruct (get_todo_stats_eq db) as (s & Hs & Ht & Hc & Hp & Hr).
  exists s. split; [done|].
  assert (Hpos : 0 < total s).
  { rewrite Ht. apply map_size_non_empty_iff in Hne. lia. }
  assert (Hb : (0 <? total s) = true) by (by apply Z.ltb_lt).
  rewrite Hb in Hr. rewrite Hr. split.
  - intros ->. destruct (total s) as [|p|p]; try lia. reflexivity.
  - intros ->. destruct (total s) as [|p|p]; try lia.
    rewrite int_truediv_self. reflexivity.
Qed.

(** ** Instances of the further properties *)

Lemma create_todo_adds_one_row_witness :
  valid_create (mkTodoItemCreate "Buy milk") ∧
  ∃ (k : Z) (item : TodoItem) (db' : Db),
    create_todo 60 (mkTodoItemCreate "Buy milk") (run sample_session).1
    = (Ok item, db') ∧
    table (run sample_session).1 !! k = None ∧
    get_todo_by_id k db' = (Ok (Some item), db') ∧
    (∀ j, j ≠ k →
       get_todo_by_id j db' = (Ok (table (run sample_session).1 !! j), db')).
Proof.
  assert (Hr : valid_create (mkTodoItemCreate "Buy milk")).
  { unfold valid_create, Py.len, max_length. simpl. lia. }
  split; [exact Hr|].
  apply (create_todo_adds_one_row sample_session 60
           (mkTodoItemCreate "Buy milk") Hr).
Defined.

Lemma update_and_delete_touch_one_row_witness :
  (1 : Z) ≠ 2 ∧
  (table (update_todo 60 2 (mkTodoItemUpdate (Some "Updated") None)
            (run sample_session).1).2 !! 1
   = table (run sample_session).1 !! 1 ∧
   table (delete_todo 2 (run sample_session).1).2 !! 1
   = table (run sample_session).1 !! 1 ∧
   next_id (update_todo 60 2 (mkTodoItemUpdate (Some "Updated") None)
              (run sample_session).1).2
   = next_id (run sample_session).1 ∧
   next_id (delete_todo 2 (run sample_session).1).2
   = next_id (run sample_session).1).
Proof.
  assert (Hj : (1 : Z) ≠ 2) by lia.
  split; [exact Hj|].
  apply (update_and_delete_touch_one_row 60 2 1
           (mkTodoItemUpdate (Some "Updated") None) (run sample_session).1 Hj).
Defined.

Lemma toggle_is_an_update_of_completed_witness :
  table (run sample_session).1 !! 2 = Some sample_row ∧
  toggle_todo_completion 60 2 (run sample_session).1
  = update_todo 60 2
      (mkTodoItemUpdate None (Some (negb (completed sample_row))))
      (run sample_session).1.
Proof.
  split; [vm_compute; reflexivity|].
  apply (toggle_is_an_update_of_completed 60 2 (run sample_session).1 sample_row).
  vm_compute; reflexivity.
Defined.

Lemma create_todo_adds_a_pending_item_witness :
  valid_create (mkTodoItemCreate "Buy milk") ∧
  ∃ (item : TodoItem) (db' : Db) (s s' : Stats),
    create_todo 60 (mkTodoItemCreate "Buy milk") (run sample_session).1
    = (Ok item, db') ∧
    get_todo_stats (run sample_session).1 = (Ok s, (run sample_session).1) ∧
    get_todo_stats db' = (Ok s', db') ∧
    total s' = total s + 1 ∧
    stats_completed s' = stats_completed s ∧
    pending s' = pending s + 1.
Proof.
  assert (Hr : valid_create (mkTodoItemCreate "Buy milk")).
  { unfold valid_create, Py.len, max_length. simpl. lia. }
  split; [exact Hr|].
  apply (create_todo_adds_a_pending_item sample_session 60
           (mkTodoItemCreate "Buy milk") Hr).
Defined.

Lemma toggle_moves_one_item_between_the_counts_witness :
  table (run sample_session).1 !! 2 = Some sample_row ∧
  ∃ (t' : TodoItem) (db' : Db) (s s' : Stats),
    toggle_todo_completion 60 2 (run sample_session).1 = (Ok (Some t'), db') ∧
    get_todo_stats (run sample_session).1 = (Ok s, (run sample_session).1) ∧
    get_todo_stats db' = (Ok s', db') ∧
    total s' = total s ∧
    stats_completed s'
    = stats_completed s + (if completed sample_row then -1 else 1) ∧
    pending s' = pending s - (if completed sample_row then -1 else 1).
Proof.
  split; [vm_compute; reflexivity|].
  apply (toggle_moves_one_item_between_the_counts sample_session 60 2 sample_row).
  vm_compute; reflexivity.
Defined.

Lemma delete_todo_removes_the_item_from_the_counts_witness :
  table (run sample_session).1 !! 2 = Some sample_row ∧
  ∃ (db' : Db) (s s' : Stats),
    delete_todo 2 (run sample_session).1 = (Ok true, db') ∧
    get_todo_stats (run sample_session).1 = (Ok s, (run sample_session).1) ∧
    get_todo_stats db' = (Ok s', db') ∧
    total s' = total s - 1 ∧
    stats_completed s'
    = stats_completed s - (if completed sample_row then 1 else 0) ∧
    pending s' = pending s - (if completed sample_row then 0 else 1).
Proof.
  split; [vm_compute; reflexivity|].
  apply (delete_todo_removes_the_item_from_the_counts 2
           (run sample_session).1 sample_row).
  vm_compute; reflexivity.
Defined.

Lemma sample_session_is_older_than_60 k t :
  table (run sample_session).1 !! k = Some t → created_at t < 60.
Proof.
  intros Hk.
  assert (Hin : t ∈ rows (run sample_session).1)
    by (apply elem_of_rows; eauto).
  vm_compute in Hin.
  repeat (apply elem_of_cons in Hin as [->|Hin]; [vm_compute; reflexivity|]).
  by apply elem_of_nil in Hin.
Defined.

Lemma newly_created_todo_is_listed_first_witness :
  (valid_create (mkTodoItemCreate "Buy milk") ∧
   ∀ k t, table (run sample_session).1 !! k = Some t → created_at t < 60) ∧
  ∃ (item : TodoItem) (db' : Db) (rest : list TodoItem),
    create_todo 60 (mkTodoItemCreate "Buy milk") (run sample_session).1
    = (Ok item, db') ∧
    get_all_todos db' = (Ok (item :: rest), db') ∧
    rest ≡ₚ rows (run sample_session).1.
Proof.
  assert (Hr : valid_create (mkTodoItemCreate "Buy milk")).
  { unfold valid_create, Py.len, max_length. simpl. lia. }
  split; [split; [exact Hr | exact sample_session_is_older_than_60]|].
  apply (newly_created_todo_is_listed_first sample_session 60
           (mkTodoItemCreate "Buy milk") Hr sample_session_is_older_than_60).
Defined.

Lemma deleted_todo_leaves_the_listing_witness :
  table (run sample_session).1 !! 2 = Some sample_row ∧
  ∃ (db' : Db) (before after : list TodoItem),
    delete_todo 2 (run sample_session).1 = (Ok true, db') ∧
    get_all_todos (run sample_session).1 = (Ok before, (run sample_session).1) ∧
    get_all_todos db' = (Ok after, db') ∧
    before ≡ₚ sample_row :: after.
Proof.
  split; [vm_compute; reflexivity|].
  apply (deleted_todo_leaves_the_listing 2 (run sample_session).1 sample_row).
  vm_compute; reflexivity.
Defined.

Lemma update_todo_twice_changes_only_updated_at_witness :
  (valid_update (mkTodoItemUpdate (Some "Updated") None) ∧
   table (run sample_session).1 !! 2 = Some sample_row) ∧
  ∃ (t1 : TodoItem) (db1 : Db) (db2 : Db),
    update_todo 60 2 (mkTodoItemUpdate (Some "Updated") None)
      (run sample_session).1 = (Ok (Some t1), db1) ∧
    update_todo 70 2 (mkTodoItemUpdate (Some "Updated") None) db1
    = (Ok (Some (set_updated_at (Some 70) t1)), db2) ∧
    table db2 !! 2 = Some (set_updated_at (Some 70) t1).
Proof.
  assert (Hr : valid_update (mkTodoItemUpdate (Some "Updated") None)).
  { intros s [= <-]. unfold Py.len, max_length. simpl. lia. }
  split; [split; [exact Hr | vm_compute; reflexivity]|].
  apply (update_todo_twice_changes_only_updated_at sample_session 60 70 2
           (mkTodoItemUpdate (Some "Updated") None) sample_row Hr).
  vm_compute; reflexivity.
Defined.

Lemma deleted_todo_never_comes_back_witness :
  table (run sample_session).1 !! 2 = Some sample_row ∧
  get_todo_by_id 2
    (run (sample_session
          ++ CallDelete 2 :: [CallCreate 60 (mkTodoItemCreate "Buy milk")])).1
  = (Ok None,
     (run (sample_session
           ++ CallDelete 2 :: [CallCreate 60 (mkTodoItemCreate "Buy milk")])).1).
Proof.
  split; [vm_compute; reflexivity|].
  apply (deleted_todo_never_comes_back sample_session
           [CallCreate 60 (mkTodoItemCreate "Buy milk")] 2 sample_row).
  vm_compute; reflexivity.
Defined.

Lemma completion_rate_at_its_ends_witness :
  table (run all_done_session).1 ≠ ∅ ∧
  ∃ s : Stats,
    get_todo_stats (run all_done_session).1 = (Ok s, (run all_done_session).1) ∧
    (stats_completed s = 0 →
     completion_rate s = Py.Float (S754_zero false)) ∧
    (stats_completed s = total s →
     completion_rate s
     = Py.Float (S754_finite false 7036874417766400 (-46))).
Proof.
  assert (Hne : table (run all_done_session).1 ≠ ∅).
  { intros He.
    assert (Hk : table (run all_done_session).1 !! 1 = None)
      by (rewrite He; apply lookup_empty).
    vm_compute in Hk. discriminate Hk. }
  split; [exact Hne|].
  apply (completion_rate_at_its_ends (run all_done_session).1 Hne).
Defined.

Lemma add_new_todo_ignores_blank_input_witness :
  Forall (λ c, PyStr.isspace c = true) (PyStr.chars (input_value blank_page)) ∧
  add_new_todo (λ _, "error") 60 no_callback blank_page
  = (Ok (),
     {| store := store blank_page; input_value := input_value blank_page;
        notifications :=
          notifications blank_page
          ++ [mkNotification "Please enter a todo description" "warning"] |}).
Proof.
  assert (Hs : Forall (λ c, PyStr.isspace c = true)
                 (PyStr.chars (input_value blank_page))).
  { repeat constructor. }
  split; [exact Hs|].
  apply (add_new_todo_ignores_blank_input (λ _, "error") 60 no_callback
           blank_page Hs).
Defined.

Lemma add_new_todo_refuses_long_input_witness :
  500 < Py.len (PyStr.strip (input_value long_page)) ∧
  add_new_todo (λ _, "error") 60 no_callback long_page
  = (Ok (),
     {| store := store long_page; input_value := input_value long_page;
        notifications :=
          notifications long_page
          ++ [mkNotification
                "Todo description is too long (max 500 characters)"
                "warning"] |}).
Proof.
  assert (Hd : 500 < Py.len (PyStr.strip (input_value long_page)))
    by (vm_compute; reflexivity).
  split; [exact Hd|].
  apply (add_new_todo_refuses_long_input (λ _, "error") 60 no_callback
           long_page Hd).
Defined.

Lemma add_new_todo_stores_the_stripped_input_witness :
  (PyStr.strip (input_value sample_page) ≠ "" ∧
   Py.len (PyStr.strip (input_value sample_page)) ≤ 500) ∧
  ∃ (item : TodoItem) (db' : Db),
    create_todo 60 (mkTodoItemCreate (PyStr.strip (input_value sample_page)))
      (store sample_page)
    = (Ok item, db') ∧
    table db' !! next_id (store sample_page) = Some item ∧
    description item = PyStr.strip (input_value sample_page) ∧
    PyStr.strip (description item) = description item ∧
    add_new_todo (λ _, "error") 60 no_callback sample_page
    = try_except no_callback
        (λ e, ui_notify ("Failed to add todo: " +:+ "error") "negative")
        {| store := db'; input_value := "";
           notifications :=
             notifications sample_page
             ++ [mkNotification "Todo added successfully!" "positive"] |}.
Proof.
  assert (Hne : PyStr.strip (input_value sample_page) ≠ "")
    by (vm_compute; discriminate).
  assert (Hd : Py.len (PyStr.strip (input_value sample_page)) ≤ 500)
    by (vm_compute; discriminate).
  split; [by split|].
  apply (add_new_todo_stores_the_stripped_input (λ _, "error") 60 no_callback
           sample_page Hne Hd).
Defined.

Lemma toggle_todo_item_announces_the_new_state_witness :
  table (run sample_session).1 !! 2 = Some sample_row ∧
  ∃ db' : Db,
    toggle_todo_completion 60 2 (run sample_session).1
    = (Ok (Some (toggled_item 60 sample_row)), db') ∧
    toggle_todo_item 60 (Some 2) no_callback
      {| store := (run sample_session).1; input_value := "";
         notifications := [] |}
    = no_callback
        {| store := db'; input_value := "";
           notifications :=
             [] ++ [mkNotification
                      (if completed sample_row then "Todo item reopened!"
                       else "Todo item completed!")
                      "positive"] |}.
Proof.
  split; [vm_compute; reflexivity|].
  apply (toggle_todo_item_announces_the_new_state sample_session 60 2
           sample_row no_callback "" []).
  vm_compute; reflexivity.
Defined.

Lemma delete_todo_item_deletes_and_refreshes_witness :
  table (store sample_page) !! 2 = Some sample_row ∧
  delete_todo_item (Some 2) no_callback sample_page
  = no_callback
      {| store := {| table := delete 2 (table (store sample_page));
                     next_id := next_id (store sample_page) |};
         input_value := input_value sample_page;
         notifications :=
           notifications sample_page
           ++ [mkNotification "Todo item deleted successfully!" "positive"] |}.
Proof.
  split; [vm_compute; reflexivity|].
  apply (delete_todo_item_deletes_and_refreshes 2 sample_row no_callback
           sample_page).
  vm_compute; reflexivity.
Defined.

Lemma handlers_report_a_missing_item_witness :
  table (store sample_page) !! 999 = None ∧
  (toggle_todo_item 60 (Some 999) no_callback sample_page
   = (Ok (),
      {| store := store sample_page; input_value := input_value sample_page;
         notifications :=
           notifications sample_page
           ++ [mkNotification "Failed to update todo item" "negative"] |}) ∧
   delete_todo_item (Some 999) no_callback sample_page
   = (Ok (),
      {| store := store sample_page; input_value := input_value sample_page;
         notifications :=
           notifications sample_page
           ++ [mkNotification "Failed to delete todo item" "negative"] |}) ∧
   toggle_todo_item 60 None no_callback sample_page = (Ok (), sample_page) ∧
   delete_todo_item None no_callback sample_page = (Ok (), sample_page)).
Proof.
  split; [vm_compute; reflexivity|].
  apply (handlers_report_a_missing_item 60 999 no_callback sample_page).
  vm_compute; reflexivity.
Defined.
